(** * GnnGenerator: the counterfactual generator of GNN-Counterfactual-Editor

    A shallow embedding of [Generators/GnnGenerator.py].  The script is
    effectful Python: it prints, exits, reads and writes files, loads torch
    and transformers models and calls the repository's [GnnEditor].  The
    embedding threads an explicit program state (the torch gradient flag,
    the heap of generator objects, the trace of observable events) through a
    small state-and-outcome monad; everything the script consumes but does
    not define is a field of an environment record. *)

From Stdlib Require Import ZArith Lia Ascii String.
From stdpp Require Import gmap strings list.

(** ** Data *)

(** A pandas DataFrame, column-major as pandas stores it: the labelled
    columns in order, a cell being a string or null (NaN). *)
Abbreviation cell := (option string).
Abbreviation DataFrame := (list (string * list cell)).

(** [df[[c1, ..., cn]]]: the columns carrying each requested label, in the
    order requested; a label that no column carries is a KeyError. *)
Fixpoint getitem_cols (df : DataFrame) (labels : list string) : option DataFrame :=
  match labels with
  | [] => Some []
  | l :: ls =>
      match filter (λ c, c.1 = l) df with
      | [] => None
      | hit => match getitem_cols df ls with
               | Some rest => Some (hit ++ rest)
               | None => None
               end
      end
  end.

Definition newline : string := String "010"%char EmptyString.

Arguments getitem_cols : simpl never.

(** The substitution dictionary the editor returns and [json.dump] writes. *)
Abbreviation SubsDict := (gmap string (list string)).

(** How a computation ends: with a value, by [exit(code)], or by an
    exception nobody catches. *)
Inductive outcome (A : Type) :=
  | Ret (a : A)
  | Exit (code : Z)
  | Raise (exn : string).
Arguments Ret {A} a.
Arguments Exit {A} code.
Arguments Raise {A} exn.

Section Generator.

(** Tensors, the DistilBERT classifier and its tokenizer are opaque to the
    script: it only loads them and hands them on. *)
Context {Weights Predictor Tokenizer : Type}.

(** The [torch.nn.Module] the script builds: its parameters, its
    training/eval mode and the device it lives on. *)
Record Model := {
  state_dict : Weights;
  training : bool;
  on_cuda : bool
}.

Definition Model_load_state_dict (m : Model) (sd : Weights) : Model :=
  {| state_dict := sd; training := training m; on_cuda := on_cuda m |}.

Definition Model_cuda (m : Model) : Model :=
  {| state_dict := state_dict m; training := training m; on_cuda := true |}.

Definition Model_eval (m : Model) : Model :=
  {| state_dict := state_dict m; training := false; on_cuda := on_cuda m |}.

(** The keyword arguments of [GnnEditor(...)] followed by those of its
    [pipeline(...)], as [generate_counterfactuals] passes them. *)
Record EditorCall := {
  data : DataFrame;
  e_gnn_model : Model;
  e_predictor : Predictor;
  e_tokenizer : Tokenizer;
  e_pos : option string;
  e_antonyms : option bool;
  e_edge_filter : bool;
  e_opt_th : bool;
  e_use_contrastive_prob : bool
}.

(** The attributes of a [GnnGenerator] object. *)
Record GnnGenerator := {
  sentences : DataFrame;
  gnn_model : Model;
  predictor : Predictor;
  tokenizer : Tokenizer;
  dest_file : string;
  json_file : option string;
  pos : option string;
  antonyms : option bool;
  edge_filter : bool;
  opt_th : bool;
  use_contrastive_prob : bool;
  edits : option DataFrame;
  subs_dict : option SubsDict
}.

(** [self.edits, self.subs_dict = e, s]: the two attributes are rebound, the
    others keep their values. *)
Definition set_results (g : GnnGenerator) (e : DataFrame) (s : SubsDict) : GnnGenerator :=
  {| sentences := sentences g; gnn_model := gnn_model g; predictor := predictor g;
     tokenizer := tokenizer g; dest_file := dest_file g; json_file := json_file g;
     pos := pos g; antonyms := antonyms g; edge_filter := edge_filter g;
     opt_th := opt_th g; use_contrastive_prob := use_contrastive_prob g;
     edits := Some e; subs_dict := Some s |}.

(** The keyword arguments of the constructor; every one defaults to None. *)
Record Args := {
  a_src_file : option string;
  a_col : option string;
  a_dest_file : option string;
  a_json_file : option string;
  a_pos : option string;
  a_antonyms : option bool;
  a_gnn_model_file : option string;
  a_predictor_path : option string;
  a_edge_filter : option bool;
  a_optimal_threshold : option bool;
  a_use_contrastive_prob : option bool
}.

(** ** Environment

    What the script calls but does not define.  A library call that can
    raise returns an option, [None] standing for the exception. *)
Record Env := {
  path_exists : string → bool;                       (* os.path.exists *)
  read_csv : string → option DataFrame;              (* pd.read_csv *)
  Model_new : nat → nat → nat → Weights;             (* GLAN_Model.GNBlock.Model *)
  torch_load : string → option Weights;              (* torch.load *)
  state_dict_fits : Weights → bool;                  (* load_state_dict is strict *)
  cuda_available : bool;                             (* .cuda() *)
  predictor_from_pretrained : string → option Predictor;
  tokenizer_from_pretrained : string → option Tokenizer;
  (* GnnEditor(...).pipeline(...), under the gradient flag in force *)
  editor_pipeline : bool → EditorCall → option (DataFrame * SubsDict);
  can_write : string → bool;                         (* opening a file for writing *)
  elapsed : string                                   (* str(datetime.now() - start_time) *)
}.

(** ** Program state and observable events

    The events of a run are what it leaves behind: the lines it printed, the
    calls of the editor it made (with the gradient flag then in force and
    the arguments passed) and the files it wrote.  Reading the table and
    loading the models leave no event; they show in the outcome, a failed
    load being an exception. *)

Inductive event :=
  | Printed (line : string)
  | EditorPipeline (grad : bool) (call : EditorCall)
  | ToCsv (path : string) (index : bool) (frame : DataFrame)
  | JsonDump (path : string) (obj : option SubsDict).

Definition loc := nat.

Record state := {
  grad_enabled : bool;             (* torch's global gradient flag *)
  heap : gmap loc GnnGenerator;    (* the generator objects *)
  trace : list event               (* what the run has done so far, oldest first *)
}.

Definition M (A : Type) : Type := state → state * outcome A.

Definition ret {A} (a : A) : M A := λ st, (st, Ret a).

Definition bind {A B} (m : M A) (k : A → M B) : M B :=
  λ st, match m st with
        | (st', Ret a) => k a st'
        | (st', Exit c) => (st', Exit c)
        | (st', Raise e) => (st', Raise e)
        end.

#[global] Instance M_ret : MRet M := @ret.
#[global] Instance M_bind : MBind M := λ A B k m, bind m k.

Definition exit {A} (code : Z) : M A := λ st, (st, Exit code).
Definition raise {A} (exn : string) : M A := λ st, (st, Raise exn).

Definition emit (e : event) : M unit :=
  λ st, ({| grad_enabled := grad_enabled st; heap := heap st;
            trace := trace st ++ [e] |}, Ret tt).

Definition print (line : string) : M unit := emit (Printed line).

(** [torch.set_grad_enabled(b)] *)
Definition set_grad_enabled (b : bool) : M unit :=
  λ st, ({| grad_enabled := b; heap := heap st; trace := trace st |}, Ret tt).

Definition get_grad_enabled : M bool := λ st, (st, Ret (grad_enabled st)).

(** A library call that may raise. *)
Definition try {A} (r : option A) (exn : string) : M A :=
  match r with
  | Some a => ret a
  | None => raise exn
  end.

(** A new object at an unused address. *)
Definition alloc (g : GnnGenerator) : M loc :=
  λ st, let l := fresh (dom (heap st)) in
        ({| grad_enabled := grad_enabled st; heap := <[l := g]> (heap st);
            trace := trace st |}, Ret l).

Definition load (self : loc) : M GnnGenerator :=
  λ st, match heap st !! self with
        | Some g => (st, Ret g)
        | None => (st, Raise "AttributeError")
        end.

(** Rebinding attributes of the object at [self]. *)
Definition update (self : loc) (f : GnnGenerator → GnnGenerator) : M unit :=
  λ st, ({| grad_enabled := grad_enabled st; heap := alter f self (heap st);
            trace := trace st |}, Ret tt).

(** ** The script *)

Variable E : Env.

(** Module level, line 61: [torch.set_grad_enabled(False)]. *)
Definition module_body : M unit := set_grad_enabled false.

(** [GnnGenerator(...)]: [__init__], lines 84 to 124, and the object it
    initialises. *)
Definition GnnGenerator_init (a : Args) : M loc :=
  src_file ← match a_src_file a with
              | None => print "[ERROR]: src_file must be specified" ;; exit 1
              | Some p => ret p
              end;
  (if path_exists E src_file then ret tt
   else print ("[ERROR]: File " +:+ src_file +:+ " does not exist") ;; exit 1) ;;
  col ← match a_col a with
         | None => print "[ERROR]: col must be specified" ;; exit 1
         | Some c => ret c
         end;
  table ← try (read_csv E src_file) "read_csv";
  sentences_ ← try (getitem_cols table [col]) "KeyError";

  gnn_model_file ← match a_gnn_model_file a with
                    | None => print "[ERROR]: gnn_model_file must be specified" ;; exit 1
                    | Some p => ret p
                    end;
  (if path_exists E gnn_model_file then ret tt
   else print ("[ERROR]: File " +:+ gnn_model_file +:+ " does not exist") ;; exit 1) ;;
  let m0 := {| state_dict := Model_new E 5 16 8; training := true; on_cuda := false |} in
  sd ← try (torch_load E gnn_model_file) "torch.load";
  m1 ← (if state_dict_fits E sd then ret (Model_load_state_dict m0 sd)
         else raise "RuntimeError");
  m2 ← (if cuda_available E then ret (Model_cuda m1) else raise "RuntimeError");
  let m3 := Model_eval m2 in

  predictor_path ← match a_predictor_path a with
                    | None => print "[ERROR]: predictor_file must be specified" ;; exit 1
                    | Some p => ret p
                    end;
  (if path_exists E predictor_path then ret tt
   else print ("[ERROR]: File " +:+ predictor_path +:+ " does not exist") ;; exit 1) ;;
  predictor_ ← try (predictor_from_pretrained E predictor_path) "OSError";
  tokenizer_ ← try (tokenizer_from_pretrained E "distilbert-base-uncased") "OSError";

  alloc {| sentences := sentences_;
           gnn_model := m3;
           predictor := predictor_;
           tokenizer := tokenizer_;
           dest_file := match a_dest_file a with None => "gnn_edits.csv" | Some d => d end;
           json_file := a_json_file a;
           pos := a_pos a;
           antonyms := a_antonyms a;
           edge_filter := match a_edge_filter a with Some b => b | None => false end;
           opt_th := match a_optimal_threshold a with Some b => b | None => false end;
           use_contrastive_prob :=
             match a_use_contrastive_prob a with Some b => b | None => false end;
           edits := None;
           subs_dict := None |}.

(** The call of the editor, lines 134 to 137: it runs under whatever
    gradient flag is in force, and the run records what it was given. *)
Definition call_editor (c : EditorCall) : M (DataFrame * SubsDict) :=
  grad ← get_grad_enabled;
  emit (EditorPipeline grad c) ;;
  try (editor_pipeline E grad c) "GnnEditor".

(** [GnnEditor(data=self.sentences, ..., antonyms=self.antonyms)] and the
    arguments of its [pipeline(edge_filter=self.edge_filter, ...)]. *)
Definition editor_call (g : GnnGenerator) : EditorCall :=
  {| data := sentences g; e_gnn_model := gnn_model g;
     e_predictor := predictor g; e_tokenizer := tokenizer g;
     e_pos := pos g; e_antonyms := antonyms g;
     e_edge_filter := edge_filter g; e_opt_th := opt_th g;
     e_use_contrastive_prob := use_contrastive_prob g |}.

Definition generate_counterfactuals (self : loc) : M loc :=
  print "[INFO]: Generating counterfactuals..." ;;
  g ← load self;
  r ← call_editor (editor_call g);
  update self (λ g', set_results g' r.1 r.2) ;;
  ret self.

(** [frame.to_csv(path, index=...)] *)
Definition to_csv (frame : option DataFrame) (path : string) (index : bool) : M unit :=
  match frame with
  | None => raise "AttributeError"
  | Some f =>
      if can_write E path then emit (ToCsv path index f) else raise "OSError"
  end.

(** [with open(path, 'w') as f: json.dump(obj, f)] *)
Definition json_dump (obj : option SubsDict) (path : string) : M unit :=
  if can_write E path then emit (JsonDump path obj) else raise "OSError".

Definition export_to_csv (self : loc) : M loc :=
  g ← load self;
  print ("[INFO]: Exporting generated counterfactuals to " +:+ dest_file g +:+ "...") ;;
  to_csv (edits g) (dest_file g) false ;;
  (match json_file g with
   | Some jf =>
       print ("[INFO]: Exporting substitution dictionary to " +:+ jf +:+ "...") ;;
       json_dump (subs_dict g) jf
   | None => ret tt
   end) ;;
  ret self.

Definition pipeline (self : loc) : M unit :=
  self' ← generate_counterfactuals self;
  export_to_csv self' ;;
  ret tt.

Definition main (a : Args) : M unit :=
  generator ← GnnGenerator_init a;
  pipeline generator ;;
  print (newline +:+ newline +:+ "Script execution time: " +:+ elapsed E).

(** Running the script: the module body, then [main]. *)
Definition script (a : Args) : M unit :=
  module_body ;; main a.

(** ** Vocabulary of the statements *)

(** The object the constructor builds from its arguments and what it
    loaded. *)
Definition constructed (a : Args) (sents : DataFrame) (sd : Weights) (pr : Predictor)
    (tk : Tokenizer) : GnnGenerator :=
  {| sentences := sents;
     gnn_model := {| state_dict := sd; training := false; on_cuda := true |};
     predictor := pr;
     tokenizer := tk;
     dest_file := default "gnn_edits.csv" (a_dest_file a);
     json_file := a_json_file a;
     pos := a_pos a;
     antonyms := a_antonyms a;
     edge_filter := default false (a_edge_filter a);
     opt_th := default false (a_optimal_threshold a);
     use_contrastive_prob := default false (a_use_contrastive_prob a);
     edits := None;
     subs_dict := None |}.

(** Everything the constructor needs in order to return. *)
Record loads (a : Args) (sents : DataFrame) (sd : Weights) (pr : Predictor)
    (tk : Tokenizer) : Prop := {
  loads_src : ∃ src table col,
    a_src_file a = Some src ∧ path_exists E src = true ∧ a_col a = Some col ∧
    read_csv E src = Some table ∧ getitem_cols table [col] = Some sents;
  loads_gnn : ∃ gf,
    a_gnn_model_file a = Some gf ∧ path_exists E gf = true ∧
    torch_load E gf = Some sd ∧ state_dict_fits E sd = true ∧
    cuda_available E = true;
  loads_predictor : ∃ pp,
    a_predictor_path a = Some pp ∧ path_exists E pp = true ∧
    predictor_from_pretrained E pp = Some pr;
  loads_tokenizer :
    tokenizer_from_pretrained E "distilbert-base-uncased" = Some tk
}.

(** The configuration attributes of a generator, everything but [edits] and
    [subs_dict]. *)
Definition same_config (g g' : GnnGenerator) : Prop :=
  sentences g' = sentences g ∧ gnn_model g' = gnn_model g ∧
  predictor g' = predictor g ∧ tokenizer g' = tokenizer g ∧
  dest_file g' = dest_file g ∧ json_file g' = json_file g ∧
  pos g' = pos g ∧ antonyms g' = antonyms g ∧
  edge_filter g' = edge_filter g ∧ opt_th g' = opt_th g ∧
  use_contrastive_prob g' = use_contrastive_prob g.

(** The CSV files a trace wrote, with the [index] flag of each, and the JSON
    documents it wrote. *)
Definition csv_writes (t : list event) : list (string * bool) :=
  flat_map (λ e, match e with ToCsv p i _ => [(p, i)] | _ => [] end) t.

Definition json_dumps (t : list event) : list (string * option SubsDict) :=
  flat_map (λ e, match e with JsonDump p d => [(p, d)] | _ => [] end) t.

(** A required reference is missing when it was not given or, being a path,
    names nothing that exists. *)
Definition path_missing (r : option string) : bool :=
  match r with
  | None => true
  | Some p => negb (path_exists E p)
  end.

Definition configuration_error (a : Args) : bool :=
  path_missing (a_src_file a) || bool_decide (a_col a = None)
  || path_missing (a_gnn_model_file a) || path_missing (a_predictor_path a).

(** A fatal end right after state [st]: the process exits with status 1
    having printed one error line, or dies of an exception; either way it
    leaves no other event (no call of the editor, no file written), no new
    object, and the gradient flag as it was. *)
Definition fatal_after {A} (st : state) (r : state * outcome A) : Prop :=
  heap r.1 = heap st ∧ grad_enabled r.1 = grad_enabled st ∧
  ((∃ msg, r.2 = Exit 1 ∧ trace r.1 = trace st ++ [Printed ("[ERROR]: " +:+ msg)])
   ∨ (∃ exn, r.2 = Raise exn ∧ trace r.1 = trace st)).

(** The events [export_to_csv] adds for an object, and the exception it
    dies of when it does not return. *)
Definition export_events (g : GnnGenerator) : list event * option string :=
  let p1 := Printed ("[INFO]: Exporting generated counterfactuals to "
                   +:+ dest_file g +:+ "...") in
  match edits g with
  | None => ([p1], Some "AttributeError")
  | Some e =>
      if can_write E (dest_file g) then
        match json_file g with
        | None => ([p1; ToCsv (dest_file g) false e], None)
        | Some jf =>
            let p2 := Printed ("[INFO]: Exporting substitution dictionary to "
                             +:+ jf +:+ "...") in
            if can_write E jf
            then ([p1; ToCsv (dest_file g) false e; p2; JsonDump jf (subs_dict g)], None)
            else ([p1; ToCsv (dest_file g) false e; p2], Some "OSError")
        end
      else ([p1], Some "OSError")
  end.

Definition ended {A} (a : A) (exn : option string) : outcome A :=
  match exn with
  | None => Ret a
  | Some e => Raise e
  end.

(** The environment [E] reading its tables through [f] instead. *)
Definition with_read_csv (f : string → option DataFrame) : Env :=
  {| path_exists := path_exists E; read_csv := f; Model_new := Model_new E;
     torch_load := torch_load E; state_dict_fits := state_dict_fits E;
     cuda_available := cuda_available E;
     predictor_from_pretrained := predictor_from_pretrained E;
     tokenizer_from_pretrained := tokenizer_from_pretrained E;
     editor_pipeline := editor_pipeline E; can_write := can_write E;
     elapsed := elapsed E |}.

(** The events a run added to the trace it started with. *)
Definition added (st st' : state) : list event :=
  drop (length (trace st)) (trace st').

(** "The Substitution Record is persisted exactly once per batch run", read
    on a completed run of [main]. *)
Definition persisted_once (a : Args) (st : state) : Prop :=
  ∀ st', main a st = (st', Ret tt) → length (json_dumps (added st st')) = 1.

(** The arguments [a] with the five toggles replaced. *)
Definition with_toggles (a : Args) (p : option string) (an ef ot uc : option bool) : Args :=
  {| a_src_file := a_src_file a; a_col := a_col a; a_dest_file := a_dest_file a;
     a_json_file := a_json_file a; a_pos := p; a_antonyms := an;
     a_gnn_model_file := a_gnn_model_file a; a_predictor_path := a_predictor_path a;
     a_edge_filter := ef; a_optimal_threshold := ot; a_use_contrastive_prob := uc |}.

(** ** The command line *)

(** The namespace [parse_input] returns, lines 176 to 199: the four options
    declared [required=True] are strings, the four declared
    [action='store_true'] are booleans (False when the flag is absent), the
    other three are strings or None. *)
Record Namespace := {
  ns_src_file : string;
  ns_col : string;
  ns_dest_file : option string;
  ns_json_file : option string;
  ns_pos : option string;
  ns_antonyms : bool;
  ns_gnn_model_file : string;
  ns_predictor_path : string;
  ns_edge_filter : bool;
  ns_optimal_threshold : bool;
  ns_use_contrastive_prob : bool
}.

(** The keyword arguments [main(args)] builds from the namespace, lines 205
    to 208. *)
Definition constructor_kwargs (args : Namespace) : Args :=
  {| a_src_file := Some (ns_src_file args);
     a_col := Some (ns_col args);
     a_dest_file := ns_dest_file args;
     a_json_file := ns_json_file args;
     a_pos := ns_pos args;
     a_antonyms := Some (ns_antonyms args);
     a_gnn_model_file := Some (ns_gnn_model_file args);
     a_predictor_path := Some (ns_predictor_path args);
     a_edge_filter := Some (ns_edge_filter args);
     a_optimal_threshold := Some (ns_optimal_threshold args);
     a_use_contrastive_prob := Some (ns_use_contrastive_prob args) |}.

(** ** More vocabulary *)

(** The error lines of the constructor, each with the test that prints
    it. *)
Definition exit_reason (a : Args) (line : string) : Prop :=
  (a_src_file a = None ∧ line = "[ERROR]: src_file must be specified")
  ∨ (∃ p, a_src_file a = Some p ∧ path_exists E p = false ∧
          line = "[ERROR]: File " +:+ p +:+ " does not exist")
  ∨ (a_col a = None ∧ line = "[ERROR]: col must be specified")
  ∨ (a_gnn_model_file a = None ∧ line = "[ERROR]: gnn_model_file must be specified")
  ∨ (∃ p, a_gnn_model_file a = Some p ∧ path_exists E p = false ∧
          line = "[ERROR]: File " +:+ p +:+ " does not exist")
  ∨ (a_predictor_path a = None ∧ line = "[ERROR]: predictor_file must be specified")
  ∨ (∃ p, a_predictor_path a = Some p ∧ path_exists E p = false ∧
          line = "[ERROR]: File " +:+ p +:+ " does not exist").

(** How far a run has got: nothing yet, the editor called, the edits CSV
    written, the substitution dictionary dumped. *)
Inductive phase := Started | Edited | CsvWritten | JsonWritten.

(** One event seen in a phase: a printed line changes nothing, the other
    events are in order only if each comes once and after the one before. *)
Definition advance (ph : phase) (e : event) : option phase :=
  match e, ph with
  | Printed _, _ => Some ph
  | EditorPipeline _ _, Started => Some Edited
  | ToCsv _ _ _, Edited => Some CsvWritten
  | JsonDump _ _, CsvWritten => Some JsonWritten
  | _, _ => None
  end.

Fixpoint follow (ph : phase) (t : list event) : option phase :=
  match t with
  | [] => Some ph
  | e :: t' =>
      match advance ph e with
      | Some ph' => follow ph' t'
      | None => None
      end
  end.

(** What a file holds once written: [to_csv] and [open(path, 'w')] both
    replace whatever the file held before. *)
Inductive content :=
  | Csv (index : bool) (frame : DataFrame)
  | Json (obj : option SubsDict).

(** One write on the disk.  A path is written through to the file it
    resolves to: [resolve] stands for the operating system's resolution of a
    path (relative names, [./], links), so that two names of one file are
    one entry. *)
Definition write (resolve : string → string) (files : gmap string content)
    (e : event) : gmap string content :=
  match e with
  | ToCsv p i f => <[resolve p := Csv i f]> files
  | JsonDump p o => <[resolve p := Json o]> files
  | _ => files
  end.

(** The files a sequence of events leaves, on top of [files]. *)
Definition written (resolve : string → string) (files : gmap string content)
    (t : list event) : gmap string content :=
  foldl (write resolve) files t.



(** ** The editor

    The generator reaches [GnnEditor] only through [editor_pipeline], and
    [Editors/GnnEditor.py] itself is not part of the code embedded above.
    The definitions of this part follow the written design of the edit
    search instead. *)

(** Modelled from the spec: the lexical relation of a substitute to the word
    it replaces, synonym or antonym; [GnnEditor] is missing. *)
Inductive relation := Synonym | Antonym.

(** Modelled from the spec: the Position Node of the data model (index,
    original word, POS tag); the graph builder of [GnnEditor] is missing. *)
Record PositionNode := {
  index : nat;
  original_word : string;
  p_tag : string
}.

(** Modelled from the spec: the Candidate Node of the data model (surface
    form, lexical relation to the original, POS tag); [GnnEditor] is
    missing. *)
Record CandidateNode := {
  surface : string;
  c_relation : relation;
  c_tag : string
}.

(** Modelled from the spec: the Substitution Edge of the data model, joining
    one position to one candidate, with its POS-match flag and relation type;
    the GNN-assigned score travels next to the edge once the graph is
    scored.  [GnnEditor] is missing. *)
Record Edge := {
  e_position : PositionNode;
  e_candidate : CandidateNode;
  pos_match : bool;
  relation_type : relation
}.

#[global] Instance relation_eq_dec : EqDecision relation.
Proof. solve_decision. Defined.
#[global] Instance PositionNode_eq_dec : EqDecision PositionNode.
Proof. solve_decision. Defined.
#[global] Instance CandidateNode_eq_dec : EqDecision CandidateNode.
Proof. solve_decision. Defined.
#[global] Instance Edge_eq_dec : EqDecision Edge.
Proof. solve_decision. Defined.

(** Modelled from the spec: the collaborators the edit search consults and
    the constants it is run with, all missing with [GnnEditor]: the
    tokenizer of sentences, the POS tagger, the Lexical Substitution
    Provider [get_candidates(word, pos_tag, relation)], the forward pass of
    the GNN Edge Scorer, the Classifier Oracle [predict(sentence) -> (label,
    confidence)] with its contrastive probability (the larger, the better
    the candidate ranks), the beam width, and the edit budget, fixed or
    computed per sentence.  Scores are integers here: the search only adds
    and compares them. *)
Record Oracles := {
  tokenize : string → list string;
  detokenize : list string → string;
  word_tag : string → string;
  get_candidates : string → option string → relation → list string;
  gnn_forward : Model → list Edge → list Z;
  predict : Predictor → Tokenizer → string → nat * Z;
  contrastive_prob : Predictor → Tokenizer → string → string → Z;
  beam_width : nat;
  fixed_budget : nat;
  optimal_budget : list string → list Edge → nat
}.

(** Modelled from the spec: an Edit applied to a Sentence, the candidate's
    surface form put at the position's index; [GnnEditor] is missing. *)
Definition apply_edit (tokens : list string) (e : Edge) : list string :=
  <[index (e_position e) := surface (e_candidate e)]> tokens.

(** Modelled from the spec: one entry of the Beam State, a partial Candidate
    Sentence tagged with cumulative score and its edits (whose number is the
    edit count); [GnnEditor] is missing. *)
Record BeamState := {
  b_tokens : list string;
  b_edits : list Edge;
  b_score : Z
}.

(** Modelled from the spec: a stable insertion sort, so that entries the
    ranking does not separate keep their original order (the tie-break of
    the pruning step); [GnnEditor] is missing. *)
Fixpoint insert_by {A} (better : A → A → bool) (x : A) (l : list A) : list A :=
  match l with
  | [] => [x]
  | y :: l' => if better y x then y :: insert_by better x l' else x :: y :: l'
  end.

(** Modelled from the spec: ordering by a ranking criterion, best first,
    by stable insertion; [GnnEditor] is missing. *)
Fixpoint sort_by {A} (better : A → A → bool) (l : list A) : list A :=
  match l with
  | [] => []
  | x :: l' => insert_by better x (sort_by better l')
  end.

Section Search.

Variable O : Oracles.
Variable c : EditorCall.

(** Modelled from the spec: the lexical relation selector, synonym unless
    antonyms are asked for; [GnnEditor] is missing. *)
Definition relation_of (antonyms_ : option bool) : relation :=
  match antonyms_ with
  | Some true => Antonym
  | _ => Synonym
  end.

(** Modelled from the spec: the positions of a sentence, one per token,
    with its index, word and POS tag; [GnnEditor] is missing. *)
Definition positions (tokens : list string) : list PositionNode :=
  imap (λ i w, {| index := i; original_word := w; p_tag := word_tag O w |}) tokens.

(** Modelled from the spec: the optional POS filter, a position being a
    substitution site when no filter is set or its tag matches it;
    [GnnEditor] is missing. *)
Definition eligible (p : PositionNode) : bool :=
  match e_pos c with
  | None => true
  | Some t => bool_decide (p_tag p = t)
  end.

(** Modelled from the spec: one Candidate Node and one Substitution Edge per
    substitute the provider returns for the word at a position, under the
    configured relation; [GnnEditor] is missing. *)
Definition edges_of (p : PositionNode) : list Edge :=
  let rel := relation_of (e_antonyms c) in
  (λ w, {| e_position := p;
           e_candidate := {| surface := w; c_relation := rel; c_tag := word_tag O w |};
           pos_match := bool_decide (word_tag O w = p_tag p);
           relation_type := rel |})
    <$> get_candidates O (original_word p) (e_pos c) rel.

(** Modelled from the spec: the Bipartite Graph Builder,
    [build_graph(sentence, pos_filter, relation)], over the eligible
    positions; with the edge filter on, edges whose candidate POS differs
    from the position's are left out at construction.  A sentence without
    eligible positions gives the empty graph.  [GnnEditor] is missing. *)
Definition build_graph (tokens : list string) : list Edge :=
  let edges := flat_map edges_of (List.filter eligible (positions tokens)) in
  if e_edge_filter c then List.filter pos_match edges else edges.

(** Modelled from the spec: the GNN Edge Scorer, [score(graph)]: one forward
    pass gives a score per edge; a graph without edges is not scored.
    [GnnEditor] is missing. *)
Definition score_graph (graph : list Edge) : list (Edge * Z) :=
  match graph with
  | [] => []
  | _ => zip graph (gnn_forward O (e_gnn_model c) graph)
  end.

(** Modelled from the spec: the order in which the expansion step takes the
    edges, by descending GNN score; [GnnEditor] is missing. *)
Definition by_descending_score (a b : Edge * Z) : bool := (b.2 <? a.2)%Z.

(** The Beam Search Edit Planner, for one sentence and its scored edges. *)
Section Planner.

Variable sentence : string.
Variable scored : list (Edge * Z).

(** Modelled from the spec: the label the Classifier Oracle predicts for a
    sentence; [GnnEditor] is missing. *)
Definition label (s : string) : nat :=
  (predict O (e_predictor c) (e_tokenizer c) s).1.

(** Modelled from the spec: the flip, the classifier's predicted label on
    the candidate differing from its prediction on the original;
    [GnnEditor] is missing. *)
Definition flipped (s : BeamState) : bool :=
  negb (bool_decide (label (detokenize O (b_tokens s)) = label sentence)).

(** Modelled from the spec: the successors of a beam entry, one per edge it
    has not applied yet, edges taken in the order given; [GnnEditor] is
    missing. *)
Definition successors (s : BeamState) : list BeamState :=
  (λ es, {| b_tokens := apply_edit (b_tokens s) es.1;
            b_edits := b_edits s ++ [es.1];
            b_score := (b_score s + es.2)%Z |})
    <$> List.filter (λ es, bool_decide (es.1 ∉ b_edits s)) scored.

(** Modelled from the spec: the expansion step, every beam entry extended
    by one additional unapplied edge; [GnnEditor] is missing. *)
Definition expand (beam : list BeamState) : list BeamState :=
  flat_map successors beam.

(** Modelled from the spec: the ranking criterion, the sum of the GNN scores
    of the applied edits, or the contrastive probability when that toggle is
    on; [GnnEditor] is missing. *)
Definition rank (s : BeamState) : Z :=
  if e_use_contrastive_prob c
  then contrastive_prob O (e_predictor c) (e_tokenizer c) sentence
         (detokenize O (b_tokens s))
  else b_score s.

(** Modelled from the spec: the order of the pruning step, higher rank
    first, ties going to fewer edits (and then, the sort being stable, to
    the earlier entry); [GnnEditor] is missing. *)
Definition better (a b : BeamState) : bool :=
  (rank b <? rank a)%Z
  || ((rank a =? rank b)%Z && (length (b_edits a) <? length (b_edits b))).

(** Modelled from the spec: pruning, only the top [beam_width] entries
    survive; [GnnEditor] is missing. *)
Definition prune (beam : list BeamState) : list BeamState :=
  take (beam_width O) (sort_by better beam).

(** Modelled from the spec: termination, one expand-and-prune round per unit
    of budget; the search stops at the first retained entry that flips the
    label and gives up, with nothing to emit, when the budget is spent.
    [GnnEditor] is missing. *)
Fixpoint search (budget : nat) (beam : list BeamState) : option BeamState :=
  match budget with
  | 0 => None
  | S budget' =>
      let beam' := prune (expand beam) in
      match List.find flipped beam' with
      | Some s => Some s
      | None => search budget' beam'
      end
  end.

(** Modelled from the spec: the Beam State after [n] rounds of expansion and
    pruning; [GnnEditor] is missing. *)
Fixpoint beam_after (n : nat) (beam : list BeamState) : list BeamState :=
  match n with
  | 0 => beam
  | S n' => beam_after n' (prune (expand beam))
  end.

End Planner.

(** Modelled from the spec: the edit budget of a sentence, the fixed constant
    or, with the adaptive toggle on, a value computed for the sentence and
    then frozen; [GnnEditor] is missing. *)
Definition budget_for (tokens : list string) (graph : list Edge) : nat :=
  if e_opt_th c then optimal_budget O tokens graph else fixed_budget O.

(** Modelled from the spec: the initial state of the search, the beam that
    holds the original sentence with no edits and the baseline score;
    [GnnEditor] is missing. *)
Definition initial_beam (tokens : list string) : list BeamState :=
  [ {| b_tokens := tokens; b_edits := []; b_score := 0 |} ].

(** Modelled from the spec: the data flow for one sentence, graph builder,
    scorer, then beam search, giving the best Candidate Sentence or none;
    [GnnEditor] is missing. *)
Definition plan (sentence : string) : option BeamState :=
  let tokens := tokenize O sentence in
  let graph := build_graph tokens in
  let scored := sort_by by_descending_score (score_graph graph) in
  search sentence scored (budget_for tokens graph) (initial_beam tokens).

(** Modelled from the spec: each row of the text column is one sentence; a
    null cell has nothing to search.  [GnnEditor] is missing. *)
Definition plan_cell (x : cell) : option BeamState :=
  match x with
  | Some sentence => plan sentence
  | None => None
  end.

(** Modelled from the spec: the input, a table with one text column, each
    row one sentence; [GnnEditor] is missing. *)
Definition rows (df : DataFrame) : list cell :=
  match df with
  | [] => []
  | column :: _ => column.2
  end.

(** Modelled from the spec: the Substitution Record, original word to the
    substitutes of the accepted edits, accumulated over the sentences;
    [GnnEditor] is missing. *)
Definition record_edit (subs : SubsDict) (e : Edge) : SubsDict :=
  let w := original_word (e_position e) in
  <[w := default [] (subs !! w) ++ [surface (e_candidate e)]]> subs.

(** Modelled from the spec: the edits of the emitted candidates, a failed
    search contributing none; [GnnEditor] is missing. *)
Definition accepted_edits (results : list (option BeamState)) : list Edge :=
  flat_map (λ r, match r with Some s => b_edits s | None => [] end) results.

(** Modelled from the spec: the counterfactual cell of a row, the best
    Candidate Sentence as text, null when the search failed; [GnnEditor] is
    missing. *)
Definition emitted (r : option BeamState) : cell :=
  (λ s, detokenize O (b_tokens s)) <$> r.

(** Modelled from the spec: [GnnEditor(...).pipeline(...)], which is missing:
    the output record, one row per input sentence with the original and its
    counterfactual, together with the Substitution Record. *)
Definition GnnEditor_pipeline : DataFrame * SubsDict :=
  let results := plan_cell <$> rows (data c) in
  ([ ("original", rows (data c)); ("counterfactual", emitted <$> results) ],
   foldl record_edit ∅ (accepted_edits results)).

End Search.

(** The budget of a sentence is spent without a flip when no entry of the
    beam, after any number of rounds up to the budget, flips the label. *)
Definition no_flip_within_budget (O : Oracles) (c : EditorCall) (sentence : string) : Prop :=
  let tokens := tokenize O sentence in
  let graph := build_graph O c tokens in
  let scored := sort_by by_descending_score (score_graph O c graph) in
  ∀ n s, 1 ≤ n ≤ budget_for O c tokens graph →
         s ∈ beam_after O c sentence scored n (initial_beam tokens) →
         flipped O c sentence s = false.

(** The editor above as it enters an environment: it does not look at the
    gradient flag and does not raise. *)
Definition editor_of (O : Oracles) (grad : bool) (c : EditorCall)
  : option (DataFrame * SubsDict) :=
  Some (GnnEditor_pipeline O c).

End Generator.

(** ** A concrete environment

    A small world to run the script in: a two-column table of two reviews, a
    one-word lexicon, a classifier that calls a sentence positive when it
    contains the word good. *)

Definition demo_table : DataFrame :=
  [ ("id", [Some "1"; Some "2"]);
    ("text", [Some "a good movie"; Some "a dull plot"]) ].

Fixpoint join_words (ws : list string) : string :=
  match ws with
  | [] => ""
  | [w] => w
  | w :: ws' => w +:+ " " +:+ join_words ws'
  end.

Definition demo_oracles : @Oracles nat unit unit := {|
  tokenize := String.words;
  detokenize := join_words;
  word_tag := λ _, "adj";
  get_candidates := λ w _ rel,
    match rel with
    | Antonym => if bool_decide (w = "good") then ["bad"] else []
    | Synonym => if bool_decide (w = "good") then ["fine"] else []
    end;
  gnn_forward := λ _ graph, map (λ _, 1%Z) graph;
  predict := λ _ _ s,
    if bool_decide ("good" ∈ String.words s) then (1, 90%Z) else (0, 80%Z);
  contrastive_prob := λ _ _ _ s,
    if bool_decide ("good" ∈ String.words s) then 0%Z else 80%Z;
  beam_width := 3;
  fixed_budget := 2;
  optimal_budget := λ tokens _, length tokens
|}.

Definition demo_env : @Env nat unit unit := {|
  path_exists := λ p, bool_decide (p ∈ ["reviews.csv"; "gnn.pth"; "predictor"]);
  read_csv := λ p, if bool_decide (p = "reviews.csv") then Some demo_table else None;
  Model_new := λ _ _ _, 0;
  torch_load := λ p, if bool_decide (p = "gnn.pth") then Some 7 else None;
  state_dict_fits := λ _, true;
  cuda_available := true;
  predictor_from_pretrained := λ _, Some tt;
  tokenizer_from_pretrained := λ _, Some tt;
  editor_pipeline := editor_of demo_oracles;
  can_write := λ _, true;
  elapsed := "0:00:01"
|}.

Definition demo_args : Args := {|
  a_src_file := Some "reviews.csv";
  a_col := Some "text";
  a_dest_file := None;
  a_json_file := None;
  a_pos := None;
  a_antonyms := Some true;
  a_gnn_model_file := Some "gnn.pth";
  a_predictor_path := Some "predictor";
  a_edge_filter := None;
  a_optimal_threshold := None;
  a_use_contrastive_prob := None
|}.

(** The state a fresh interpreter starts in: torch computes gradients by
    default, no generator exists, nothing has happened. *)
Definition fresh_state {W P T} : @state W P T :=
  {| grad_enabled := true; heap := ∅; trace := [] |}.

(** The same run asked to keep the substitution dictionary, and a run that
    names no GNN checkpoint. *)
Definition demo_args_json : Args := {|
  a_src_file := Some "reviews.csv";
  a_col := Some "text";
  a_dest_file := Some "out.csv";
  a_json_file := Some "subs.json";
  a_pos := Some "adj";
  a_antonyms := Some true;
  a_gnn_model_file := Some "gnn.pth";
  a_predictor_path := Some "predictor";
  a_edge_filter := Some true;
  a_optimal_threshold := None;
  a_use_contrastive_prob := Some true
|}.

Definition demo_args_no_model : Args := {|
  a_src_file := Some "reviews.csv";
  a_col := Some "text";
  a_dest_file := None;
  a_json_file := None;
  a_pos := None;
  a_antonyms := None;
  a_gnn_model_file := None;
  a_predictor_path := Some "predictor";
  a_edge_filter := None;
  a_optimal_threshold := None;
  a_use_contrastive_prob := None
|}.

Definition demo_sentences : DataFrame :=
  [ ("text", [Some "a good movie"; Some "a dull plot"]) ].

(** The generator of the demo run, as constructed, and the program state
    right after its construction and after the whole of [main]. *)
Definition demo_generator : @GnnGenerator nat unit unit :=
  constructed demo_args demo_sentences 7 tt tt.

Definition demo_state_fresh : @state nat unit unit := fresh_state.

Definition demo_state_new : @state nat unit unit :=
  (GnnGenerator_init demo_env demo_args fresh_state).1.

Definition demo_state_done : @state nat unit unit :=
  (main demo_env demo_args fresh_state).1.

(** The same table with its other column gone. *)
Definition demo_read_text_only (p : string) : option DataFrame :=
  if bool_decide (p = "reviews.csv") then Some demo_sentences else None.

(** The demo world on a machine without CUDA, with a substitution file that
    cannot be opened, and with an editor that raises. *)
Definition demo_env_cpu : @Env nat unit unit := {|
  path_exists := path_exists demo_env; read_csv := read_csv demo_env;
  Model_new := Model_new demo_env; torch_load := torch_load demo_env;
  state_dict_fits := state_dict_fits demo_env;
  cuda_available := false;
  predictor_from_pretrained := predictor_from_pretrained demo_env;
  tokenizer_from_pretrained := tokenizer_from_pretrained demo_env;
  editor_pipeline := editor_pipeline demo_env;
  can_write := can_write demo_env; elapsed := elapsed demo_env
|}.

Definition demo_env_json_locked : @Env nat unit unit := {|
  path_exists := path_exists demo_env; read_csv := read_csv demo_env;
  Model_new := Model_new demo_env; torch_load := torch_load demo_env;
  state_dict_fits := state_dict_fits demo_env;
  cuda_available := cuda_available demo_env;
  predictor_from_pretrained := predictor_from_pretrained demo_env;
  tokenizer_from_pretrained := tokenizer_from_pretrained demo_env;
  editor_pipeline := editor_pipeline demo_env;
  can_write := λ p, negb (bool_decide (p = "subs.json"));
  elapsed := elapsed demo_env
|}.

Definition demo_env_csv_locked : @Env nat unit unit := {|
  path_exists := path_exists demo_env; read_csv := read_csv demo_env;
  Model_new := Model_new demo_env; torch_load := torch_load demo_env;
  state_dict_fits := state_dict_fits demo_env;
  cuda_available := cuda_available demo_env;
  predictor_from_pretrained := predictor_from_pretrained demo_env;
  tokenizer_from_pretrained := tokenizer_from_pretrained demo_env;
  editor_pipeline := editor_pipeline demo_env;
  can_write := λ p, negb (bool_decide (p = "out.csv"));
  elapsed := elapsed demo_env
|}.

Definition demo_env_editor_raises : @Env nat unit unit := {|
  path_exists := path_exists demo_env; read_csv := read_csv demo_env;
  Model_new := Model_new demo_env; torch_load := torch_load demo_env;
  state_dict_fits := state_dict_fits demo_env;
  cuda_available := cuda_available demo_env;
  predictor_from_pretrained := predictor_from_pretrained demo_env;
  tokenizer_from_pretrained := tokenizer_from_pretrained demo_env;
  editor_pipeline := λ _ _, None;
  can_write := can_write demo_env; elapsed := elapsed demo_env
|}.

(** The demo arguments asking for a column the table does not have. *)
Definition demo_args_bad_col : Args := {|
  a_src_file := Some "reviews.csv";
  a_col := Some "review";
  a_dest_file := None;
  a_json_file := None;
  a_pos := None;
  a_antonyms := None;
  a_gnn_model_file := None;
  a_predictor_path := None;
  a_edge_filter := None;
  a_optimal_threshold := None;
  a_use_contrastive_prob := None
|}.

(** A command line naming a checkpoint that is not there. *)
Definition demo_namespace : Namespace := {|
  ns_src_file := "reviews.csv";
  ns_col := "text";
  ns_dest_file := None;
  ns_json_file := None;
  ns_pos := None;
  ns_antonyms := false;
  ns_gnn_model_file := "lost.pth";
  ns_predictor_path := "predictor";
  ns_edge_filter := false;
  ns_optimal_threshold := true;
  ns_use_contrastive_prob := false
|}.

(** Path resolution in the demo world: a leading [./] names the same
    file. *)
Definition demo_resolve (p : string) : string :=
  match p with
  | String "." (String "/" rest) => rest
  | _ => p
  end.

(** The demo arguments sending the substitution dictionary to the very file
    of the edits, under another name. *)
Definition demo_args_one_file : Args := {|
  a_src_file := Some "reviews.csv";
  a_col := Some "text";
  a_dest_file := Some "out.txt";
  a_json_file := Some "./out.txt";
  a_pos := None;
  a_antonyms := Some true;
  a_gnn_model_file := Some "gnn.pth";
  a_predictor_path := Some "predictor";
  a_edge_filter := None;
  a_optimal_threshold := None;
  a_use_contrastive_prob := None
|}.

(** A command line with everything in place. *)
Definition demo_namespace_ok : Namespace := {|
  ns_src_file := "reviews.csv";
  ns_col := "text";
  ns_dest_file := Some "out.csv";
  ns_json_file := None;
  ns_pos := Some "adj";
  ns_antonyms := false;
  ns_gnn_model_file := "gnn.pth";
  ns_predictor_path := "predictor";
  ns_edge_filter := true;
  ns_optimal_threshold := false;
  ns_use_contrastive_prob := false
|}.

(** The generator of the second demo run once its counterfactuals are
    generated. *)
Definition demo_state_generated : @state nat unit unit :=
  (generate_counterfactuals demo_env 0
     (GnnGenerator_init demo_env demo_args_json fresh_state).1).1.

(** * Properties of the script *)

Section Properties.

Context {Weights Predictor Tokenizer : Type}.
Implicit Types (E : @Env Weights Predictor Tokenizer).
Implicit Types (st : @state Weights Predictor Tokenizer).
Implicit Types (g : @GnnGenerator Weights Predictor Tokenizer).
Implicit Types (a : Args) (self : loc).

Ltac unfold_M :=
  unfold mbind, M_bind, bind, ret, exit, raise, try, print, emit, alloc, load,
    update, get_grad_enabled, set_grad_enabled in *.

(** Case analysis on the next test the code makes. *)
Tactic Notation "step" constr(x) "as" simple_intropattern(pat) :=
  destruct x as pat eqn:?; simpl in *; try discriminate.

Lemma init_returns E a st sents sd pr tk :
  loads E a sents sd pr tk →
  GnnGenerator_init E a st =
    ({| grad_enabled := grad_enabled st;
        heap := <[fresh (dom (heap st)) := constructed a sents sd pr tk]> (heap st);
        trace := trace st |},
     Ret (fresh (dom (heap st)))).
Proof.
  intros [(src & table & col & Hs & Hse & Hc & Hr & Hg)
          (gf & Hgf & Hge & Hl & Hf & Hcu) (pp & Hp & Hpe & Hpr) Htk].
  unfold GnnGenerator_init. unfold_M.
  rewrite Hs; simpl. rewrite Hse; simpl. rewrite Hc; simpl. rewrite Hr; simpl.
  rewrite Hg; simpl. rewrite Hgf; simpl. rewrite Hge; simpl. rewrite Hl; simpl.
  rewrite Hf; simpl. rewrite Hcu; simpl. rewrite Hp; simpl. rewrite Hpe; simpl.
  rewrite Hpr; simpl. rewrite Htk; simpl.
  unfold constructed.
  destruct (a_dest_file a), (a_edge_filter a), (a_optimal_threshold a),
    (a_use_contrastive_prob a); reflexivity.
Qed.

Lemma init_inv E a st st' self :
  GnnGenerator_init E a st = (st', Ret self) →
  ∃ sents sd pr tk,
    loads E a sents sd pr tk ∧
    self = fresh (dom (heap st)) ∧
    st' = {| grad_enabled := grad_enabled st;
             heap := <[self := constructed a sents sd pr tk]> (heap st);
             trace := trace st |}.
Proof.
  intros H.
  assert (∃ sents sd pr tk, loads E a sents sd pr tk) as (sents & sd & pr & tk & L).
  { revert H. unfold GnnGenerator_init. unfold_M. intros H.
    step (a_src_file a) as [src|]. step (path_exists E src) as [|].
    step (a_col a) as [col|]. step (read_csv E src) as [table|].
    step (getitem_cols table [col]) as [sents|].
    step (a_gnn_model_file a) as [gf|]. step (path_exists E gf) as [|].
    step (torch_load E gf) as [sd|]. step (state_dict_fits E sd) as [|].
    step (cuda_available E) as [|].
    step (a_predictor_path a) as [pp|]. step (path_exists E pp) as [|].
    step (predictor_from_pretrained E pp) as [pr|].
    step (tokenizer_from_pretrained E "distilbert-base-uncased") as [tk|].
    exists sents, sd, pr, tk. split; eauto 10. }
  exists sents, sd, pr, tk. rewrite (init_returns _ _ _ _ _ _ _ L) in H.
  by simplify_eq.
Qed.

(** The constructor either returns or ends the process. *)
Lemma init_cases E a st :
  (∃ sents sd pr tk, loads E a sents sd pr tk)
  ∨ fatal_after st (GnnGenerator_init E a st).
Proof.
  unfold fatal_after, GnnGenerator_init. unfold_M.
  step (a_src_file a) as [src|]; [|right; eauto 10].
  step (path_exists E src) as [|]; [|right; eauto 10].
  step (a_col a) as [col|]; [|right; eauto 10].
  step (read_csv E src) as [table|]; [|right; eauto 10].
  step (getitem_cols table [col]) as [sents|]; [|right; eauto 10].
  step (a_gnn_model_file a) as [gf|]; [|right; eauto 10].
  step (path_exists E gf) as [|]; [|right; eauto 10].
  step (torch_load E gf) as [sd|]; [|right; eauto 10].
  step (state_dict_fits E sd) as [|]; [|right; eauto 10].
  step (cuda_available E) as [|]; [|right; eauto 10].
  step (a_predictor_path a) as [pp|]; [|right; eauto 10].
  step (path_exists E pp) as [|]; [|right; eauto 10].
  step (predictor_from_pretrained E pp) as [pr|]; [|right; eauto 10].
  step (tokenizer_from_pretrained E "distilbert-base-uncased") as [tk|];
    [|right; eauto 10].
  left. exists sents, sd, pr, tk. split; eauto 10.
Qed.


(** What [generate_counterfactuals] does to an existing object. *)
Lemma generate_counterfactuals_run E self st g :
  heap st !! self = Some g →
  generate_counterfactuals E self st =
    let t := trace st ++ [Printed "[INFO]: Generating counterfactuals...";
                          EditorPipeline (grad_enabled st) (editor_call g)] in
    match editor_pipeline E (grad_enabled st) (editor_call g) with
    | Some r =>
        ({| grad_enabled := grad_enabled st;
            heap := alter (λ g', set_results g' r.1 r.2) self (heap st);
            trace := t |}, Ret self)
    | None =>
        ({| grad_enabled := grad_enabled st; heap := heap st; trace := t |},
         Raise "GnnEditor")
    end.
Proof.
  intros Hg. unfold generate_counterfactuals, call_editor. unfold_M. simpl.
  rewrite Hg. simpl. rewrite <- app_assoc. simpl.
  destruct (editor_pipeline E (grad_enabled st) (editor_call g)); reflexivity.
Qed.

Lemma export_to_csv_run E self st g :
  heap st !! self = Some g →
  export_to_csv E self st =
    ({| grad_enabled := grad_enabled st; heap := heap st;
        trace := trace st ++ (export_events E g).1 |},
     ended self (export_events E g).2).
Proof.
  intros Hg. unfold export_to_csv, export_events, to_csv, json_dump. unfold_M.
  rewrite Hg. simpl.
  destruct (edits g) as [e|]; simpl; [|done].
  destruct (can_write E (dest_file g)); simpl; [|done].
  destruct (json_file g) as [jf|]; simpl.
  - destruct (can_write E jf); simpl; rewrite <- !app_assoc; done.
  - rewrite <- !app_assoc; done.
Qed.

Lemma added_app st st' new :
  trace st' = trace st ++ new → added st st' = new.
Proof. unfold added. intros ->. apply (drop_app_length (trace st)). Qed.

Ltac added_simpl := erewrite added_app by (simpl; reflexivity).

Lemma export_events_no_editor E g grad c :
  EditorPipeline grad c ∈ (export_events E g).1 → False.
Proof.
  unfold export_events.
  destruct (edits g), (can_write E (dest_file g)), (json_file g) as [jf|];
    simpl; try destruct (can_write E jf); simpl;
    rewrite ?elem_of_cons, ?elem_of_nil; intuition discriminate.
Qed.

(** The whole of [main] once the constructor has what it needs. *)
Lemma main_loaded E a st sents sd pr tk :
  loads E a sents sd pr tk →
  main E a st =
    let self := fresh (dom (heap st)) in
    let g0 := constructed a sents sd pr tk in
    let t1 := [Printed "[INFO]: Generating counterfactuals...";
               EditorPipeline (grad_enabled st) (editor_call g0)] in
    match editor_pipeline E (grad_enabled st) (editor_call g0) with
    | None =>
        ({| grad_enabled := grad_enabled st; heap := <[self := g0]> (heap st);
            trace := trace st ++ t1 |}, Raise "GnnEditor")
    | Some r =>
        let g1 := set_results g0 r.1 r.2 in
        match (export_events E g1).2 with
        | None =>
            ({| grad_enabled := grad_enabled st; heap := <[self := g1]> (heap st);
                trace := trace st ++ t1 ++ (export_events E g1).1 ++
                         [Printed (newline +:+ newline +:+
                                 "Script execution time: " +:+ elapsed E)] |},
             Ret tt)
        | Some exn =>
            ({| grad_enabled := grad_enabled st; heap := <[self := g1]> (heap st);
                trace := trace st ++ t1 ++ (export_events E g1).1 |}, Raise exn)
        end
    end.
Proof.
  intros L. unfold main, pipeline.
  unfold mbind at 1, M_bind at 1, bind at 1.
  rewrite (init_returns _ _ _ _ _ _ _ L).
  unfold mbind at 1, M_bind at 1, bind at 1.
  unfold mbind at 1, M_bind at 1, bind at 1.
  erewrite generate_counterfactuals_run by apply lookup_insert_eq.
  simpl.
  destruct (editor_pipeline E (grad_enabled st) _) as [r|]; [|done].
  unfold mbind, M_bind, bind.
  erewrite export_to_csv_run
    by (simpl; rewrite alter_insert_eq; apply lookup_insert_eq).
  simpl. rewrite alter_insert_eq.
  destruct (export_events E _).2; simpl.
  - by rewrite <- !app_assoc.
  - unfold_M. simpl. by rewrite <- !app_assoc.
Qed.

Lemma main_fatal E a st :
  fatal_after st (GnnGenerator_init E a st) → fatal_after st (main E a st).
Proof.
  intros (Hh & Hg & F).
  unfold main. unfold mbind at 1, M_bind at 1, bind at 1.
  destruct (GnnGenerator_init E a st) as [st' [self|code|exn]]; simpl in *.
  - destruct F as [(? & ? & _)|(? & ? & _)]; discriminate.
  - repeat split; try assumption.
    destruct F as [(msg & Heq & Ht)|(exn & Heq & Ht)]; simplify_eq; eauto.
  - repeat split; try assumption.
    destruct F as [(msg & Heq & Ht)|(exn' & Heq & Ht)]; simplify_eq; eauto.
Qed.

Lemma main_not_loaded E a st :
  (∀ sents sd pr tk, ¬ loads E a sents sd pr tk) →
  fatal_after st (GnnGenerator_init E a st) ∧ fatal_after st (main E a st).
Proof.
  intros HL.
  destruct (init_cases E a st) as [(sents & sd & pr & tk & L)|F];
    [by apply HL in L|].
  split; [done|]. by apply main_fatal.
Qed.

Lemma fatal_after_not_ret {A} st (r : state * outcome A) (x : A) :
  fatal_after st r → r.2 ≠ Ret x.
Proof. intros (_ & _ & [(? & -> & _)|(? & -> & _)]); discriminate. Qed.

(** A fatal end adds nothing but, at most, one printed line. *)
Lemma fatal_after_added {A} st (r : state * outcome A) e :
  fatal_after st r → e ∈ added st r.1 → ∃ line, e = Printed line.
Proof.
  intros (_ & _ & [(msg & _ & Ht)|(exn & _ & Ht)]).
  - rewrite (added_app _ _ _ Ht). intros ->%list_elem_of_singleton. eauto.
  - rewrite (added_app st r.1 []) by (by rewrite app_nil_r).
    by intros ?%elem_of_nil.
Qed.

(** Selecting one label from a table whose labels are distinct gives that
    one column. *)
Lemma filter_label_NoDup (table : DataFrame) (col : string) :
  NoDup table.*1 →
  filter (λ c, c.1 = col) table = []
  ∨ ∃ cells, (col, cells) ∈ table ∧ filter (λ c, c.1 = col) table = [(col, cells)].
Proof.
  induction table as [|[l cells] table IH]; intros Hnd; [by left|].
  apply NoDup_cons in Hnd as [Hl Hnd]. specialize (IH Hnd).
  rewrite filter_cons. simpl. destruct (decide (l = col)) as [->|Hne].
  - right. exists cells. split; [left|].
    destruct IH as [->|(cells' & Hin & _)]; [done|].
    exfalso. apply Hl. apply list_elem_of_fmap. by exists (col, cells').
  - destruct IH as [IH|(cells' & Hin & IH)]; [by left|].
    right. exists cells'. split; [by right|done].
Qed.

Lemma getitem_col_inv (table sents : DataFrame) (col : string) :
  getitem_cols table [col] = Some sents →
  sents = filter (λ c, c.1 = col) table ∧ sents ≠ [].
Proof.
  unfold getitem_cols.
  destruct (filter (λ c, c.1 = col) table) as [|x l]; [done|].
  intros [= <-]. by rewrite app_nil_r.
Qed.

Lemma init_with_read_csv E f a st :
  (∀ src col, a_src_file a = Some src → a_col a = Some col →
     match read_csv E src, f src with
     | Some t1, Some t2 => getitem_cols t1 [col] = getitem_cols t2 [col]
     | None, None => True
     | _, _ => False
     end) →
  GnnGenerator_init (with_read_csv E f) a st = GnnGenerator_init E a st.
Proof.
  intros H. unfold GnnGenerator_init. unfold_M. simpl.
  destruct (a_src_file a) as [src|]; [|done]. simpl.
  destruct (path_exists E src); [|done]. simpl.
  destruct (a_col a) as [col|]; [|done]. simpl.
  specialize (H src col eq_refl eq_refl).
  destruct (read_csv E src) as [t1|], (f src) as [t2|]; try done. simpl.
  by rewrite H.
Qed.

(** What [main] does once the constructor has returned: it calls the editor,
    never exits, completes when the editor returns and the files can be
    written, and keeps and writes what the editor returned. *)
Lemma main_loaded_calls_editor E a st sents sd pr tk :
  loads E a sents sd pr tk →
  EditorPipeline (grad_enabled st) (editor_call (constructed a sents sd pr tk))
    ∈ added st (main E a st).1.
Proof.
  intros L. rewrite (main_loaded _ _ _ _ _ _ _ L). simpl.
  destruct (editor_pipeline E (grad_enabled st) _) as [r|]; simpl.
  - destruct (export_events E _).2; simpl; added_simpl;
      apply list_elem_of_further, list_elem_of_here.
  - added_simpl. apply list_elem_of_further, list_elem_of_here.
Qed.

Lemma main_loaded_never_exits E a st sents sd pr tk :
  loads E a sents sd pr tk → ∀ code, (main E a st).2 ≠ Exit code.
Proof.
  intros L code. rewrite (main_loaded _ _ _ _ _ _ _ L). simpl.
  destruct (editor_pipeline E (grad_enabled st) _) as [r|]; simpl; [|done].
  by destruct (export_events E _).2.
Qed.

Lemma main_loaded_completes E a st sents sd pr tk :
  loads E a sents sd pr tk →
  let g := constructed a sents sd pr tk in
  (main E a st).2 = Ret tt ↔
    is_Some (editor_pipeline E (grad_enabled st) (editor_call g)) ∧
    can_write E (dest_file g) = true ∧
    (∀ jf, json_file g = Some jf → can_write E jf = true).
Proof.
  intros L g. subst g. rewrite (main_loaded _ _ _ _ _ _ _ L). simpl.
  destruct (editor_pipeline E (grad_enabled st) _) as [[e s]|];
    simpl; [|split; [done|by intros ([? ?] & _)]].
  unfold export_events. simpl.
  destruct (can_write E (default "gnn_edits.csv" (a_dest_file a))); simpl;
    [|split; [done|by intros (_ & ? & _)]].
  destruct (a_json_file a) as [jf|]; simpl.
  - destruct (can_write E jf) eqn:Hjw; simpl.
    + split; [intros _|done]. split_and!; [done|done|]. by intros ? [= <-].
    + split; [done|]. intros (_ & _ & Hall). by rewrite (Hall jf eq_refl) in Hjw.
  - split; [intros _|done]. by split_and!.
Qed.

Lemma main_loaded_keeps_results E a st sents sd pr tk e s :
  loads E a sents sd pr tk →
  let g := constructed a sents sd pr tk in
  editor_pipeline E (grad_enabled st) (editor_call g) = Some (e, s) →
  (∃ g', heap (main E a st).1 !! fresh (dom (heap st)) = Some g' ∧
         edits g' = Some e ∧ subs_dict g' = Some s) ∧
  (can_write E (dest_file g) = true →
   ToCsv (dest_file g) false e ∈ added st (main E a st).1 ∧
   ∀ jf, json_file g = Some jf → can_write E jf = true →
         JsonDump jf (Some s) ∈ added st (main E a st).1).
Proof.
  intros L g Hed. subst g. rewrite (main_loaded _ _ _ _ _ _ _ L). simpl.
  rewrite Hed. simpl. unfold export_events. simpl.
  destruct (can_write E (default "gnn_edits.csv" (a_dest_file a))); simpl.
  - destruct (a_json_file a) as [jf|]; simpl; [destruct (can_write E jf) eqn:Hjw; simpl|];
      rewrite lookup_insert_eq; (split; [by eexists|]); intros _; added_simpl;
      (split; [do 3 apply list_elem_of_further; apply list_elem_of_here|]).
    + intros ? [= <-] _. do 5 apply list_elem_of_further. apply list_elem_of_here.
    + intros ? [= <-]. by rewrite Hjw.
    + done.
  - rewrite lookup_insert_eq. split; [by eexists|done].
Qed.

(** The calls of the editor that a run of [main] makes. *)
Lemma main_editor_calls E a st grad c :
  EditorPipeline grad c ∈ added st (main E a st).1 →
  ∃ sents sd pr tk,
    loads E a sents sd pr tk ∧ grad = grad_enabled st ∧
    c = editor_call (constructed a sents sd pr tk).
Proof.
  destruct (init_cases E a st) as [(sents & sd & pr & tk & L)|F].
  - rewrite (main_loaded _ _ _ _ _ _ _ L). simpl.
    set (g0 := constructed a sents sd pr tk).
    intros Hin. exists sents, sd, pr, tk. split; [done|]. revert Hin.
    destruct (editor_pipeline E (grad_enabled st) (editor_call g0)) as [[e s]|];
      simpl.
    + pose proof (export_events_no_editor E (set_results g0 e s) grad c) as Hno.
      destruct (export_events E (set_results g0 e s)).2; simpl; added_simpl;
        simpl; rewrite !elem_of_cons, ?elem_of_app, ?list_elem_of_singleton.
      * intros [?|[[= -> ->]|?]]; done.
      * intros [?|[[= -> ->]|[?|?]]]; done.
    + added_simpl. rewrite !elem_of_cons.
      by intros [?|[[= -> ->]|?%elem_of_nil]].
  - apply main_fatal in F. intros Hin.
    apply (fatal_after_added _ _ _ F) in Hin as [line Hin]. discriminate.
Qed.

(** ** The constructor *)

Lemma loads_with_toggles E a sents sd pr tk p an ef ot uc :
  loads E a sents sd pr tk → loads E (with_toggles a p an ef ot uc) sents sd pr tk.
Proof. intros [? ? ? ?]. split; assumption. Qed.

(** C9: the constructed object holds [edge_filter], [opt_th] and
    [use_contrastive_prob] with None turned into False, and [pos] and
    [antonyms] exactly as given (an unspecified [antonyms] stays None); the
    call of the editor that [generate_counterfactuals] then makes carries
    these very values. *)
Theorem toggles_normalized E a st st' self :
  GnnGenerator_init E a st = (st', Ret self) →
  ∃ g, heap st' !! self = Some g ∧
    edge_filter g = default false (a_edge_filter a) ∧
    opt_th g = default false (a_optimal_threshold a) ∧
    use_contrastive_prob g = default false (a_use_contrastive_prob a) ∧
    pos g = a_pos a ∧ antonyms g = a_antonyms a ∧
    ∃ c, EditorPipeline (grad_enabled st') c
           ∈ added st' (generate_counterfactuals E self st').1 ∧
      e_pos c = a_pos a ∧ e_antonyms c = a_antonyms a ∧
      e_edge_filter c = default false (a_edge_filter a) ∧
      e_opt_th c = default false (a_optimal_threshold a) ∧
      e_use_contrastive_prob c = default false (a_use_contrastive_prob a).
Proof.
  intros H. apply init_inv in H as (sents & sd & pr & tk & L & -> & ->).
  set (g := constructed a sents sd pr tk). simpl.
  exists g. rewrite lookup_insert_eq. repeat (split; [reflexivity|]).
  exists (editor_call g). split; [|by repeat split].
  erewrite generate_counterfactuals_run by apply lookup_insert_eq. simpl.
  destruct (editor_pipeline E (grad_enabled st) (editor_call g)); simpl;
    added_simpl; set_solver.
Qed.

(** C5: no value of the five toggles is refused.  Whenever the required
    references are in order, the constructor returns the object built from
    the toggles whatever they are, and [main] goes on with it: it calls the
    editor with them, never ends with an exit status, keeps in the object
    the edits and the substitution dictionary the editor returns and writes
    them out, the CSV and then the JSON if one is configured.  The run
    completes exactly when the editor returns for that call and the output
    files can be written: no step of the generator turns a combination
    down. *)
Theorem any_toggle_combination_accepted E a st sents sd pr tk p an ef ot uc :
  loads E a sents sd pr tk →
  let a' := with_toggles a p an ef ot uc in
  let self := fresh (dom (heap st)) in
  let g := constructed a' sents sd pr tk in
  let r := main E a' st in
  (GnnGenerator_init E a' st).2 = Ret self ∧
  heap (GnnGenerator_init E a' st).1 !! self = Some g ∧
  pos g = p ∧ antonyms g = an ∧ edge_filter g = default false ef ∧
  opt_th g = default false ot ∧ use_contrastive_prob g = default false uc ∧
  EditorPipeline (grad_enabled st) (editor_call g) ∈ added st r.1 ∧
  (∀ code, r.2 ≠ Exit code) ∧
  (r.2 = Ret tt ↔
     is_Some (editor_pipeline E (grad_enabled st) (editor_call g)) ∧
     can_write E (dest_file g) = true ∧
     (∀ jf, json_file g = Some jf → can_write E jf = true)) ∧
  (∀ e s, editor_pipeline E (grad_enabled st) (editor_call g) = Some (e, s) →
     (∃ g', heap r.1 !! self = Some g' ∧ edits g' = Some e ∧ subs_dict g' = Some s) ∧
     (can_write E (dest_file g) = true →
      ToCsv (dest_file g) false e ∈ added st r.1 ∧
      ∀ jf, json_file g = Some jf → can_write E jf = true →
            JsonDump jf (Some s) ∈ added st r.1)).
Proof.
  intros L a' self g r.
  pose proof (loads_with_toggles _ _ _ _ _ _ p an ef ot uc L) as L'.
  fold a' in L'.
  rewrite (init_returns _ _ _ _ _ _ _ L'). simpl.
  split; [done|]. split; [apply lookup_insert_eq|].
  repeat (split; [reflexivity|]).
  split_and!.
  - by apply (main_loaded_calls_editor _ _ _ _ _ _ _ L').
  - by apply (main_loaded_never_exits _ _ _ _ _ _ _ L').
  - by apply (main_loaded_completes _ _ _ _ _ _ _ L').
  - intros e s Hed. by apply (main_loaded_keeps_results _ _ _ _ _ _ _ _ _ L').
Qed.

(** ** The methods *)

(** C10: on an existing generator object, [generate_counterfactuals]
    returns the object it was called on whenever it returns; the object
    keeps every configuration attribute, its [edits] and [subs_dict] being
    then what the editor returned; every other object and the gradient flag
    are untouched. *)
Theorem generate_counterfactuals_frame E self st g :
  heap st !! self = Some g →
  let r := generate_counterfactuals E self st in
  (∃ g', heap r.1 !! self = Some g' ∧ same_config g g') ∧
  (∀ l, l ≠ self → heap r.1 !! l = heap st !! l) ∧
  grad_enabled r.1 = grad_enabled st ∧
  (∀ x, r.2 = Ret x →
     x = self ∧
     ∃ e s, editor_pipeline E (grad_enabled st) (editor_call g) = Some (e, s) ∧
            heap r.1 !! self = Some (set_results g e s)).
Proof.
  intros Hg r. subst r. rewrite (generate_counterfactuals_run _ _ _ _ Hg). simpl.
  destruct (editor_pipeline E (grad_enabled st) (editor_call g)) as [[e s]|]; simpl.
  - rewrite lookup_alter_eq, Hg. simpl. split_and!.
    + eexists. split; [reflexivity|]. by repeat split.
    + intros l Hl. by rewrite lookup_alter_ne.
    + done.
    + intros x [= <-]. eauto.
  - split_and!; [eexists; split; [done|by repeat split]|done|done|done].
Qed.


(** ** Runs of the script *)

(** C6: in every run of the script the gradient flag is off from the module
    body on and is off when the run ends; every call of the editor is made
    with the flag off and with a model in eval mode whose parameters are the
    ones loaded from [gnn_model_file]; and the generator the run creates
    still holds that model, eval mode and loaded parameters, at the end. *)
Theorem gnn_is_inference_only E a st :
  let r := script E a st in
  grad_enabled r.1 = false ∧
  (∀ grad c, EditorPipeline grad c ∈ added st r.1 →
     grad = false ∧ training (e_gnn_model c) = false ∧
     ∃ gf, a_gnn_model_file a = Some gf ∧
           torch_load E gf = Some (state_dict (e_gnn_model c))) ∧
  (∀ self g, heap st !! self = None → heap r.1 !! self = Some g →
     training (gnn_model g) = false ∧
     ∃ gf, a_gnn_model_file a = Some gf ∧
           torch_load E gf = Some (state_dict (gnn_model g))).
Proof.
  intros r. subst r. unfold script, module_body.
  unfold mbind, M_bind, bind, set_grad_enabled.
  set (st0 := {| grad_enabled := false; heap := heap st; trace := trace st |}).
  destruct (init_cases E a st0) as [(sents & sd & pr & tk & L)|F].
  - rewrite (main_loaded _ _ _ _ _ _ _ L). simpl.
    set (g0 := constructed a sents sd pr tk).
    destruct L as [_ (gf & Hgf & _ & Hl & _) _ _].
    assert (∃ gf, a_gnn_model_file a = Some gf ∧ torch_load E gf = Some sd)
      as Hloaded by eauto.
    assert (∀ g1 self g,
              gnn_model g1 = gnn_model g0 → heap st !! self = None →
              <[fresh (dom (heap st)) := g1]> (heap st) !! self = Some g →
              training (gnn_model g) = false ∧
              ∃ gf, a_gnn_model_file a = Some gf ∧
                    torch_load E gf = Some (state_dict (gnn_model g))) as Hheap.
    { intros g1 self g Hg1 Hnone.
      destruct (decide (self = fresh (dom (heap st)))) as [->|Hne].
      - rewrite lookup_insert_eq. intros [= <-]. by rewrite Hg1.
      - rewrite lookup_insert_ne by done. congruence. }
    destruct (editor_pipeline E false (editor_call g0)) as [[e s]|]; simpl.
    + pose proof (export_events_no_editor E (set_results g0 e s)) as Hno.
      destruct (export_events E (set_results g0 e s)).2; simpl.
      * split_and!; [done| |intros self g ? ?; eapply Hheap; [|eassumption|eassumption]; reflexivity].
        intros grad c. added_simpl. simpl.
        rewrite !elem_of_cons. intros [?|[[= -> ->]|Hin]]; [done|done|].
        by apply Hno in Hin.
      * split_and!; [done| |intros self g ? ?; eapply Hheap; [|eassumption|eassumption]; reflexivity].
        intros grad c. added_simpl. simpl.
        rewrite !elem_of_cons, elem_of_app, list_elem_of_singleton.
        intros [?|[[= -> ->]|[Hin|?]]]; [done|done| |done].
        by apply Hno in Hin.
    + split_and!; [done| |intros self g ? ?; eapply Hheap; [|eassumption|eassumption]; reflexivity].
      intros grad c. added_simpl.
      rewrite !elem_of_cons. by intros [?|[[= -> ->]|Hin%elem_of_nil]].
  - apply main_fatal in F. pose proof F as (Hh & Hg & _).
    split; [by rewrite Hg|]. split.
    + intros grad c Hin.
      apply (fatal_after_added st0 _ _ F) in Hin as [line Hin]. discriminate.
    + intros self g Hnone. rewrite Hh. simpl. congruence.
Qed.

(** C4, amended: a completed run of [main] has called the editor once and
    then written the edits CSV; when a [json_file] is configured it has
    then, last of all its writes, dumped there the substitution dictionary
    the editor returned, once; when none is configured it has dumped
    nothing. *)
Theorem substitution_record_persistence E a st st' :
  main E a st = (st', Ret tt) →
  ∃ c e s dest,
    editor_pipeline E (grad_enabled st) c = Some (e, s) ∧
    added st st' =
      [Printed "[INFO]: Generating counterfactuals...";
       EditorPipeline (grad_enabled st) c;
       Printed ("[INFO]: Exporting generated counterfactuals to " +:+ dest +:+ "...");
       ToCsv dest false e]
      ++ match a_json_file a with
         | Some jf =>
             [Printed ("[INFO]: Exporting substitution dictionary to " +:+ jf +:+ "...");
              JsonDump jf (Some s)]
         | None => []
         end
      ++ [Printed (newline +:+ newline +:+ "Script execution time: " +:+ elapsed E)] ∧
    json_dumps (added st st') =
      match a_json_file a with
      | Some jf => [(jf, Some s)]
      | None => []
      end.
Proof.
  intros H.
  destruct (init_cases E a st) as [(sents & sd & pr & tk & L)|F].
  - rewrite (main_loaded _ _ _ _ _ _ _ L) in H. simpl in H.
    set (g0 := constructed a sents sd pr tk) in *.
    destruct (editor_pipeline E (grad_enabled st) (editor_call g0))
      as [[e s]|] eqn:Hed; [|discriminate].
    exists (editor_call g0), e, s, (dest_file g0). split; [done|].
    revert H. unfold export_events. simpl.
    destruct (can_write E _); simpl; [|discriminate].
    destruct (a_json_file a) as [jf|]; simpl.
    + destruct (can_write E jf); simpl; [|discriminate].
      intros [= <-]. by added_simpl.
    + intros [= <-]. by added_simpl.
  - apply main_fatal in F. by apply (fatal_after_not_ret _ _ tt) in F; rewrite H in F.
Qed.

End Properties.

(** * Properties of the edit search *)

Section EditorProperties.

Context {Weights Predictor Tokenizer : Type}.
Implicit Types (O : @Oracles Weights Predictor Tokenizer).
Implicit Types (c : @EditorCall Weights Predictor Tokenizer).
Implicit Types (beam : list BeamState) (scored : list (Edge * Z)).

(** ** What the search returns *)

Lemma search_some O c sentence scored budget beam s :
  search O c sentence scored budget beam = Some s →
  flipped O c sentence s = true ∧
  ∃ n, 1 ≤ n ≤ budget ∧ s ∈ beam_after O c sentence scored n beam.
Proof.
  revert beam. induction budget as [|budget IH]; intros beam; simpl; [done|].
  destruct (List.find _ _) as [s'|] eqn:Hfind.
  - intros [= ->]. apply find_some in Hfind as [Hin Hflip].
    split; [done|]. exists 1. split; [lia|]. by apply list_elem_of_In.
  - intros H. apply IH in H as (Hflip & n & Hn & Hin).
    split; [done|]. exists (S n). split; [lia|done].
Qed.

Lemma search_none O c sentence scored budget beam :
  search O c sentence scored budget beam = None ↔
  ∀ n s, 1 ≤ n ≤ budget → s ∈ beam_after O c sentence scored n beam →
         flipped O c sentence s = false.
Proof.
  revert beam. induction budget as [|budget IH]; intros beam; simpl.
  { split; [intros _ n s ?; lia|done]. }
  destruct (List.find _ _) as [s'|] eqn:Hfind.
  - split; [done|]. intros H. apply find_some in Hfind as [Hin Hflip].
    rewrite (H 1 s') in Hflip; [done|lia|by apply list_elem_of_In].
  - rewrite IH. split.
    + intros H [|[|n]] s Hn Hin; [lia| |].
      * eapply find_none; [done|]. by apply list_elem_of_In.
      * apply (H (S n)); [lia|done].
    + intros H n s Hn Hin. apply (H (S n)); [lia|done].
Qed.

(** C1: in the table the editor returns, the counterfactual of a row is
    present only if the classifier's label on it differs from its label on
    the row's original sentence; and a row whose search spends its budget
    without any beam entry flipping the label has no counterfactual. *)
Theorem counterfactual_only_on_flip O c :
  ∃ cfs,
    (GnnEditor_pipeline O c).1 =
      [("original", rows (data c)); ("counterfactual", cfs)] ∧
    ∀ i sentence, rows (data c) !! i = Some (Some sentence) →
      ∃ cf, cfs !! i = Some cf ∧
        (∀ s', cf = Some s' → label O c s' ≠ label O c sentence) ∧
        (no_flip_within_budget O c sentence → cf = None).
Proof.
  exists (emitted O <$> (plan_cell O c <$> rows (data c))).
  split; [reflexivity|]. intros i sentence Hi.
  rewrite !list_lookup_fmap, Hi. simpl. eexists. split; [reflexivity|].
  unfold plan. split.
  - intros s'. destruct (search _ _ _ _ _ _) as [s|] eqn:Hs; [|done].
    intros [= <-]. apply search_some in Hs as [Hflip _].
    unfold flipped in Hflip. apply negb_true_iff, bool_decide_eq_false in Hflip.
    done.
  - intros Hno. unfold no_flip_within_budget in Hno.
    apply search_none in Hno. by rewrite Hno.
Qed.

End EditorProperties.

(** * Error and edge behaviour of the script *)

Section Behaviour.

Context {Weights Predictor Tokenizer : Type}.
Implicit Types (E : @Env Weights Predictor Tokenizer).
Implicit Types (st : @state Weights Predictor Tokenizer).
Implicit Types (g : @GnnGenerator Weights Predictor Tokenizer).
Implicit Types (a : Args) (self : loc).

Ltac unfold_M :=
  unfold mbind, M_bind, bind, try, print, emit, alloc, load, update,
    get_grad_enabled, set_grad_enabled, ret, exit, raise in *.

Tactic Notation "step" constr(x) "as" simple_intropattern(pat) :=
  destruct x as pat eqn:?; simpl in *; try discriminate.

Ltac added_simpl := erewrite added_app by (simpl; reflexivity).

(** ** Exits *)

Ltac use_tests :=
  repeat match goal with H : _ = _ |- _ => rewrite H end.

Ltac exit_branch :=
  simplify_eq;
  split_and!;
  [ done
  | unfold configuration_error, path_missing; use_tests; simpl;
    by rewrite ?orb_true_r
  | eexists; split_and!; [|reflexivity|done|done];
    unfold exit_reason; eauto 15 ].

Lemma init_exit_inv E a st st' code :
  GnnGenerator_init E a st = (st', Exit code) →
  code = 1%Z ∧ configuration_error E a = true ∧
  ∃ line, exit_reason E a line ∧ trace st' = trace st ++ [Printed line] ∧
          heap st' = heap st ∧ grad_enabled st' = grad_enabled st.
Proof.
  unfold GnnGenerator_init. unfold_M. intros H.
  step (a_src_file a) as [src|]; [|exit_branch].
  step (path_exists E src) as [|]; [|exit_branch].
  step (a_col a) as [col|]; [|exit_branch].
  step (read_csv E src) as [table|].
  step (getitem_cols table [col]) as [sents|].
  step (a_gnn_model_file a) as [gf|]; [|exit_branch].
  step (path_exists E gf) as [|]; [|exit_branch].
  step (torch_load E gf) as [sd|]. step (state_dict_fits E sd) as [|].
  step (cuda_available E) as [|].
  step (a_predictor_path a) as [pp|]; [|exit_branch].
  step (path_exists E pp) as [|]; [|exit_branch].
  step (predictor_from_pretrained E pp) as [pr|].
  step (tokenizer_from_pretrained E "distilbert-base-uncased") as [tk|].
Qed.

Lemma main_exit_init E a st st' code :
  main E a st = (st', Exit code) → GnnGenerator_init E a st = (st', Exit code).
Proof.
  intros H. destruct (GnnGenerator_init E a st) as [st1 [self|c|exn]] eqn:Hinit.
  - apply init_inv in Hinit as (sents & sd & pr & tk & L & _ & _).
    rewrite (main_loaded _ _ _ _ _ _ _ L) in H. simpl in H. revert H.
    destruct (editor_pipeline E _ _); [|discriminate].
    destruct (export_events E _).2; discriminate.
  - revert H. unfold main. unfold mbind at 1, M_bind at 1, bind at 1.
    rewrite Hinit. by intros [= -> ->].
  - revert H. unfold main. unfold mbind at 1, M_bind at 1, bind at 1.
    by rewrite Hinit.
Qed.

(** X1: the constructor, and [main], end the process with an exit status
    only for a configuration error: the status is 1, one of the checked
    references is missing, and the one line printed before is the error
    line of a test that failed, naming the path when it is a path that does
    not exist.  No object was created. *)
Theorem exit_names_a_missing_reference E a st st' code :
  GnnGenerator_init E a st = (st', Exit code) ∨ main E a st = (st', Exit code) →
  code = 1%Z ∧ configuration_error E a = true ∧
  ∃ line, exit_reason E a line ∧ trace st' = trace st ++ [Printed line] ∧
          heap st' = heap st ∧ grad_enabled st' = grad_enabled st.
Proof.
  intros [H|H%main_exit_init]; by apply init_exit_inv in H.
Qed.




(** X12: started from the command line, where the parser has already
    insisted on the four required options, the constructor can only exit for
    a path that does not exist: the line printed names the source file, the
    GNN checkpoint or the predictor directory, and never says that a
    reference "must be specified". *)
Theorem cli_exit_names_a_missing_file E (args : Namespace) st st' code :
  main E (constructor_kwargs args) st = (st', Exit code) →
  code = 1%Z ∧
  ∃ p, p ∈ [ns_src_file args; ns_gnn_model_file args; ns_predictor_path args] ∧
       path_exists E p = false ∧
       trace st' = trace st ++ [Printed ("[ERROR]: File " +:+ p +:+ " does not exist")].
Proof.
  intros H%main_exit_init%init_exit_inv.
  destruct H as (-> & _ & line & Hreason & Htrace & _). split; [done|].
  unfold exit_reason in Hreason. simpl in Hreason.
  destruct Hreason as [[? _]|[(p & [= <-] & Hp & ->)|[[? _]|[[? _]|
    [(p & [= <-] & Hp & ->)|[[? _]|(p & [= <-] & Hp & ->)]]]]]];
    try discriminate; eexists; (split; [|split; [exact Hp|exact Htrace]]);
    rewrite !elem_of_cons; auto.
Qed.

(** ** The constructor *)

(** X2: a construction that returns has printed nothing and left the
    gradient flag and every existing generator as they were; the new object
    sits at an address not in use before, has no edits and no substitution
    dictionary yet, and its GNN is on the GPU in eval mode. *)
Theorem construction_is_silent E a st st' self :
  GnnGenerator_init E a st = (st', Ret self) →
  trace st' = trace st ∧ grad_enabled st' = grad_enabled st ∧
  heap st !! self = None ∧
  (∀ l, l ≠ self → heap st' !! l = heap st !! l) ∧
  ∃ g, heap st' !! self = Some g ∧ edits g = None ∧ subs_dict g = None ∧
       training (gnn_model g) = false ∧ on_cuda (gnn_model g) = true.
Proof.
  intros H. apply init_inv in H as (sents & sd & pr & tk & L & -> & ->). simpl.
  split_and!; [done|done| | |].
  - apply not_elem_of_dom, is_fresh.
  - intros l Hl. by rewrite lookup_insert_ne.
  - eexists. rewrite lookup_insert_eq. by split_and!.
Qed.

Lemma getitem_missing (table : DataFrame) (col : string) :
  col ∉ table.*1 → getitem_cols table [col] = None.
Proof.
  intros Hcol. unfold getitem_cols.
  assert (filter (λ c : string * list cell, c.1 = col) table = []) as ->; [|done].
  induction table as [|[l cells] table IH]; [done|].
  rewrite fmap_cons, not_elem_of_cons in Hcol. destruct Hcol as [Hne Hcol].
  simpl in Hne. rewrite filter_cons. simpl.
  destruct (decide (l = col)) as [->|_]; [done|auto].
Qed.

(** X3: a column name the table does not have is not reported as a
    configuration error: with the source file in place and read, the
    constructor dies of pandas' KeyError, having printed nothing and built
    nothing, whatever the other arguments are. *)
Theorem unknown_column_raises E a st src col table :
  a_src_file a = Some src → path_exists E src = true →
  a_col a = Some col → read_csv E src = Some table →
  col ∉ table.*1 →
  GnnGenerator_init E a st = (st, Raise "KeyError").
Proof.
  intros Hs He Hc Hr Hcol%getitem_missing.
  unfold GnnGenerator_init. unfold_M.
  rewrite Hs; simpl. rewrite He; simpl. rewrite Hc; simpl.
  rewrite Hr; simpl. by rewrite Hcol.
Qed.

(** X4: the model is moved to the GPU unconditionally, so on a machine
    without CUDA no construction ever returns, whatever the arguments, and
    [main] calls no editor and writes no file there. *)
Theorem no_cuda_no_generator E a st :
  cuda_available E = false →
  (∀ self, (GnnGenerator_init E a st).2 ≠ Ret self) ∧
  (∀ e, e ∈ added st (main E a st).1 → ∃ line, e = Printed line).
Proof.
  intros Hcuda.
  assert (∀ sents sd pr tk, ¬ loads E a sents sd pr tk) as Hno.
  { intros sents sd pr tk [_ (gf & _ & _ & _ & _ & Hc) _ _]. congruence. }
  split.
  - intros self Hret.
    destruct (GnnGenerator_init E a st) as [st' o] eqn:Hinit. simpl in Hret.
    subst o. apply init_inv in Hinit as (sents & sd & pr & tk & L & _).
    by apply Hno in L.
  - intros e. apply fatal_after_added. by apply main_not_loaded.
Qed.

(** ** Exporting *)

(** X5: exporting before any counterfactuals were generated fails after
    the announcement line: [self.edits] is still None, the call dies of an
    AttributeError, and no file is written. *)
Theorem export_before_generate_raises E self st g :
  heap st !! self = Some g → edits g = None →
  export_to_csv E self st =
    ({| grad_enabled := grad_enabled st; heap := heap st;
        trace := trace st ++
          [Printed ("[INFO]: Exporting generated counterfactuals to "
                    +:+ dest_file g +:+ "...")] |},
     Raise "AttributeError").
Proof.
  intros Hg He. rewrite (export_to_csv_run _ _ _ _ Hg).
  unfold export_events. by rewrite He.
Qed.

(** X6: the CSV is written before the substitution file is opened: when a
    [json_file] is configured that cannot be opened, the export dies of an
    OSError with the edits CSV already written and no dictionary dumped. *)
Theorem unwritable_json_keeps_csv E self st g e jf :
  heap st !! self = Some g → edits g = Some e →
  can_write E (dest_file g) = true →
  json_file g = Some jf → can_write E jf = false →
  let r := export_to_csv E self st in
  r.2 = Raise "OSError" ∧
  (∃ line, added st r.1 =
     [Printed ("[INFO]: Exporting generated counterfactuals to "
               +:+ dest_file g +:+ "...");
      ToCsv (dest_file g) false e; Printed line]) ∧
  json_dumps (added st r.1) = [].
Proof.
  intros Hg He Hw Hj Hjw r. subst r. rewrite (export_to_csv_run _ _ _ _ Hg).
  unfold export_events. rewrite He, Hw, Hj, Hjw. simpl.
  split_and!; [done| |by added_simpl]. eexists. by added_simpl.
Qed.

(** X7: when the edits CSV cannot be written the export dies of an OSError
    right after the announcement line; nothing is written, and the
    substitution file is not even attempted, configured or not. *)
Theorem unwritable_csv_writes_nothing E self st g e :
  heap st !! self = Some g → edits g = Some e →
  can_write E (dest_file g) = false →
  export_to_csv E self st =
    ({| grad_enabled := grad_enabled st; heap := heap st;
        trace := trace st ++
          [Printed ("[INFO]: Exporting generated counterfactuals to "
                    +:+ dest_file g +:+ "...")] |},
     Raise "OSError").
Proof.
  intros Hg He Hw. rewrite (export_to_csv_run _ _ _ _ Hg).
  unfold export_events. by rewrite He, Hw.
Qed.

(** X8: exporting reads the generator and never changes it, nor the
    gradient flag; it returns the object it was called on or raises, never
    exits; and exporting again right away does the same again, the same
    events with the same contents and the same end. *)
Theorem export_to_csv_repeatable E self st g :
  heap st !! self = Some g →
  let r1 := export_to_csv E self st in
  let r2 := export_to_csv E self r1.1 in
  heap r1.1 = heap st ∧ grad_enabled r1.1 = grad_enabled st ∧
  (r1.2 = Ret self ∨ ∃ exn, r1.2 = Raise exn) ∧
  r2.2 = r1.2 ∧ added r1.1 r2.1 = added st r1.1.
Proof.
  intros Hg r1 r2. subst r1 r2.
  rewrite (export_to_csv_run _ _ _ _ Hg). simpl.
  erewrite export_to_csv_run by (simpl; exact Hg). simpl.
  split_and!; [done|done| |done|].
  - destruct (export_events E g).2; simpl; eauto.
  - by do 2 added_simpl.
Qed.

(** ** Generating *)

(** X9: when the editor raises, [generate_counterfactuals] passes the
    exception on and leaves every generator exactly as it was, the previous
    edits and substitution dictionary included; [pipeline] then exports
    nothing. *)
Theorem editor_failure_leaves_generator E self st g :
  heap st !! self = Some g →
  editor_pipeline E (grad_enabled st) (editor_call g) = None →
  (∃ exn, (generate_counterfactuals E self st).2 = Raise exn) ∧
  heap (generate_counterfactuals E self st).1 = heap st ∧
  (∃ exn, (pipeline E self st).2 = Raise exn) ∧
  heap (pipeline E self st).1 = heap st ∧
  csv_writes (added st (pipeline E self st).1) = [] ∧
  json_dumps (added st (pipeline E self st).1) = [].
Proof.
  intros Hg Hed.
  pose proof (generate_counterfactuals_run E self st g Hg) as Hgen.
  rewrite Hed in Hgen. simpl in Hgen.
  assert (pipeline E self st =
            ((generate_counterfactuals E self st).1, Raise "GnnEditor")) as Hpipe.
  { unfold pipeline, mbind, M_bind, bind. by rewrite Hgen. }
  rewrite Hpipe, Hgen. simpl.
  split_and!; [eauto|done|eauto|done|by added_simpl|by added_simpl].
Qed.


(** ** Runs of [main] *)

(** C7: the constructed object's [sentences] are the columns of the table
    read from [src_file] that carry the label [col]: with distinct labels,
    as [read_csv] gives them, that one column whole, every row of it.  They
    are the [data] the editor is called with, by
    [generate_counterfactuals] and in every call a run of [main] makes.
    And nothing else of the table matters: a run on a table that agrees on
    that column is the same run, to the last event. *)
Theorem only_the_designated_column E a st :
  (∀ st' self, GnnGenerator_init E a st = (st', Ret self) →
     ∃ src col table g,
       a_src_file a = Some src ∧ a_col a = Some col ∧
       read_csv E src = Some table ∧ heap st' !! self = Some g ∧
       sentences g = filter (λ c, c.1 = col) table ∧
       (NoDup table.*1 →
          ∃ cells, (col, cells) ∈ table ∧ sentences g = [(col, cells)]) ∧
       ∃ c, EditorPipeline (grad_enabled st') c
              ∈ added st' (generate_counterfactuals E self st').1 ∧
            data c = sentences g) ∧
  (∀ grad c, EditorPipeline grad c ∈ added st (main E a st).1 →
     ∃ src col table,
       a_src_file a = Some src ∧ a_col a = Some col ∧
       read_csv E src = Some table ∧
       data c = filter (λ c, c.1 = col) table ∧
       (NoDup table.*1 →
          ∃ cells, (col, cells) ∈ table ∧ data c = [(col, cells)])) ∧
  (∀ f,
     (∀ src col, a_src_file a = Some src → a_col a = Some col →
        match read_csv E src, f src with
        | Some t1, Some t2 => getitem_cols t1 [col] = getitem_cols t2 [col]
        | None, None => True
        | _, _ => False
        end) →
     script (with_read_csv E f) a st = script E a st).
Proof.
  assert (∀ sents sd pr tk, loads E a sents sd pr tk →
            ∃ src col table,
              a_src_file a = Some src ∧ a_col a = Some col ∧
              read_csv E src = Some table ∧
              sents = filter (λ c, c.1 = col) table ∧
              (NoDup table.*1 →
                 ∃ cells, (col, cells) ∈ table ∧ sents = [(col, cells)]))
    as Hcolumn.
  { intros sents sd pr tk [(src & table & col & Hs & _ & Hc & Hr & Hg) _ _ _].
    apply getitem_col_inv in Hg as [Hg Hne].
    exists src, col, table. split_and!; try done.
    intros Hnd. destruct (filter_label_NoDup table col Hnd) as [Hnil|Hone].
    - congruence.
    - destruct Hone as (cells & Hin & Hf). exists cells. split; [done|].
      congruence. }
  split_and!.
  - intros st' self H.
    apply init_inv in H as (sents & sd & pr & tk & L & -> & ->).
    destruct (Hcolumn _ _ _ _ L) as (src & col & table & Hs & Hc & Hr & Hf & Hone).
    set (g := constructed a sents sd pr tk).
    exists src, col, table, g. simpl.
    rewrite lookup_insert_eq. split_and!; try done.
    exists (editor_call g). split; [|done].
    erewrite generate_counterfactuals_run by apply lookup_insert_eq. simpl.
    destruct (editor_pipeline E (grad_enabled st) (editor_call g)); simpl;
      added_simpl; apply list_elem_of_further, list_elem_of_here.
  - intros grad c (sents & sd & pr & tk & L & _ & ->)%main_editor_calls.
    by apply (Hcolumn _ _ _ _ L).
  - intros f H. unfold script, module_body, main.
    unfold mbind, M_bind, bind, set_grad_enabled.
    by rewrite (init_with_read_csv _ _ _ _ H).
Qed.

(** X13: from the command line every toggle reaches the editor as the
    boolean of its flag: [antonyms] is never None there (False when the flag
    is absent, as the module's usage text says), and [pos] is the option
    given or None. *)
Theorem cli_toggles_reach_the_editor E (args : Namespace) st grad c :
  EditorPipeline grad c ∈ added st (main E (constructor_kwargs args) st).1 →
  e_antonyms c = Some (ns_antonyms args) ∧ e_pos c = ns_pos args ∧
  e_edge_filter c = ns_edge_filter args ∧
  e_opt_th c = ns_optimal_threshold args ∧
  e_use_contrastive_prob c = ns_use_contrastive_prob args.
Proof.
  intros (sents & sd & pr & tk & _ & _ & ->)%main_editor_calls. by split_and!.
Qed.

(** X11: every run of [main], however it ends, keeps to one order: at most
    one call of the editor, then at most one CSV, then at most one JSON
    dump, nothing out of turn or twice.  A run that completes has written
    the CSV, and a dump happens only with a [json_file] configured. *)
Theorem main_events_in_order E a st :
  ∃ ph, follow Started (added st (main E a st).1) = Some ph ∧
    ((main E a st).2 = Ret tt → ph = CsvWritten ∨ ph = JsonWritten) ∧
    (ph = JsonWritten → ∃ jf, a_json_file a = Some jf).
Proof.
  destruct (init_cases E a st) as [(sents & sd & pr & tk & L)|F].
  - rewrite (main_loaded _ _ _ _ _ _ _ L). simpl.
    destruct (editor_pipeline E (grad_enabled st) _) as [[e s]|]; simpl.
    + unfold export_events. simpl.
      destruct (can_write E (default "gnn_edits.csv" (a_dest_file a))); simpl.
      * destruct (a_json_file a) as [jf|]; simpl.
        -- destruct (can_write E jf); simpl; added_simpl; simpl;
             eexists; split_and!; eauto; discriminate.
        -- added_simpl. simpl. eexists; split_and!; eauto; discriminate.
      * added_simpl. simpl. eexists; split_and!; eauto; discriminate.
    + added_simpl. simpl. eexists; split_and!; eauto; discriminate.
  - apply main_fatal in F.
    exists Started. split_and!; [|intros H|discriminate].
    + destruct F as (_ & _ & [(msg & _ & Ht)|(exn & _ & Ht)]).
      * by rewrite (added_app _ _ _ Ht).
      * by rewrite (added_app st _ []) by (by rewrite app_nil_r).
    + by apply (fatal_after_not_ret _ _ tt) in F.
Qed.

(** X14: [main] completes exactly when the constructor has all it needs,
    the editor returns, the edits CSV can be written and so can the
    substitution file if one is configured. *)
Theorem main_completes_iff E a st :
  (main E a st).2 = Ret tt ↔
  ∃ sents sd pr tk,
    loads E a sents sd pr tk ∧
    is_Some (editor_pipeline E (grad_enabled st)
               (editor_call (constructed a sents sd pr tk))) ∧
    can_write E (default "gnn_edits.csv" (a_dest_file a)) = true ∧
    (∀ jf, a_json_file a = Some jf → can_write E jf = true).
Proof.
  split.
  - intros H. destruct (init_cases E a st) as [(sents & sd & pr & tk & L)|F].
    + exists sents, sd, pr, tk. split; [done|]. revert H.
      rewrite (main_loaded _ _ _ _ _ _ _ L). simpl.
      destruct (editor_pipeline E (grad_enabled st) _) as [[e s]|]; [|done].
      unfold export_events. simpl.
      destruct (can_write E (default "gnn_edits.csv" (a_dest_file a))); [|done].
      destruct (a_json_file a) as [jf|]; simpl; [|by intros _; split_and!].
      destruct (can_write E jf) eqn:Hjf; simpl; [|done].
      intros _. split_and!; [done|done|]. by intros ? [= <-].
    + apply main_fatal in F. by apply (fatal_after_not_ret _ _ tt) in F.
  - intros (sents & sd & pr & tk & L & [[e s] Hed] & Hw & Hj).
    rewrite (main_loaded _ _ _ _ _ _ _ L). simpl. rewrite Hed.
    unfold export_events. simpl. rewrite Hw.
    destruct (a_json_file a) as [jf|]; simpl; [|done].
    by rewrite (Hj jf eq_refl).
Qed.

(** X15: what a completed run leaves on disk, files being what the paths
    resolve to.  With no [json_file], the file of [dest_file] holds the
    edits, written without index.  With a [json_file], its file holds the
    substitution dictionary the editor returned; if that is the file of
    [dest_file] too, under the same name or another, the dictionary has
    replaced the edits written just before, which are lost; the edits are
    on disk only if the two paths resolve to different files. *)
Theorem outputs_on_disk E a st st' (resolve : string → string) files :
  main E a st = (st', Ret tt) →
  ∃ c e s,
    editor_pipeline E (grad_enabled st) c = Some (e, s) ∧
    let dest := default "gnn_edits.csv" (a_dest_file a) in
    let disk := written resolve files (added st st') in
    match a_json_file a with
    | None => disk !! resolve dest = Some (Csv false e)
    | Some jf =>
        disk !! resolve jf = Some (Json (Some s)) ∧
        (resolve jf = resolve dest → disk !! resolve dest = Some (Json (Some s))) ∧
        (resolve jf ≠ resolve dest → disk !! resolve dest = Some (Csv false e))
    end.
Proof.
  intros H. destruct (init_cases E a st) as [(sents & sd & pr & tk & L)|F].
  - revert H. rewrite (main_loaded _ _ _ _ _ _ _ L). simpl.
    destruct (editor_pipeline E (grad_enabled st) _) as [[e s]|] eqn:Hed; [|done].
    unfold export_events. simpl.
    destruct (can_write E (default "gnn_edits.csv" (a_dest_file a))); [|done].
    destruct (a_json_file a) as [jf|]; simpl.
    + destruct (can_write E jf); simpl; [|done]. intros [= <-].
      eexists _, e, s. split; [exact Hed|]. added_simpl. unfold written. simpl.
      split_and!.
      * by rewrite lookup_insert_eq.
      * intros <-. by rewrite lookup_insert_eq.
      * intros Hne. by rewrite lookup_insert_ne, lookup_insert_eq.
    + intros [= <-]. eexists _, e, s. split; [exact Hed|]. added_simpl.
      unfold written. simpl. by rewrite lookup_insert_eq.
  - apply main_fatal in F. by apply (fatal_after_not_ret _ _ tt) in F; rewrite H in F.
Qed.

End Behaviour.

(** * The demo run *)

Lemma demo_loads : loads demo_env demo_args demo_sentences 7 tt tt.
Proof.
  split.
  - exists "reviews.csv", demo_table, "text". by repeat split.
  - exists "gnn.pth". by repeat split.
  - exists "predictor". by repeat split.
  - reflexivity.
Qed.

Example demo_trace :
  trace (script demo_env demo_args_json demo_state_fresh).1 =
    [ Printed "[INFO]: Generating counterfactuals...";
      EditorPipeline false
        {| data := demo_sentences;
           e_gnn_model := {| state_dict := 7; training := false; on_cuda := true |};
           e_predictor := tt; e_tokenizer := tt;
           e_pos := Some "adj"; e_antonyms := Some true;
           e_edge_filter := true; e_opt_th := false;
           e_use_contrastive_prob := true |};
      Printed "[INFO]: Exporting generated counterfactuals to out.csv...";
      ToCsv "out.csv" false
        [ ("original", [Some "a good movie"; Some "a dull plot"]);
          ("counterfactual", [Some "a bad movie"; None]) ];
      Printed "[INFO]: Exporting substitution dictionary to subs.json...";
      JsonDump "subs.json" (Some {[ "good" := ["bad"] ]});
      Printed (newline +:+ newline +:+ "Script execution time: 0:00:01") ].
Proof. vm_compute. reflexivity. Qed.

Lemma counterfactual_only_on_flip_witness :
  ∃ cfs,
    (GnnEditor_pipeline demo_oracles (editor_call demo_generator)).1 =
      [("original", rows (data (editor_call demo_generator)));
       ("counterfactual", cfs)] ∧
    ∀ i sentence,
      rows (data (editor_call demo_generator)) !! i = Some (Some sentence) →
      ∃ cf, cfs !! i = Some cf ∧
        (∀ s', cf = Some s' →
           label demo_oracles (editor_call demo_generator) s'
           ≠ label demo_oracles (editor_call demo_generator) sentence) ∧
        (no_flip_within_budget demo_oracles (editor_call demo_generator) sentence →
         cf = None).
Proof. apply (counterfactual_only_on_flip demo_oracles (editor_call demo_generator)). Defined.



(** C4 as stated fails: the demo run completes, with no [json_file]
    configured, and has dumped the substitution dictionary nowhere. *)
Lemma substitution_record_not_persisted :
  ¬ persisted_once demo_env demo_args demo_state_fresh.
Proof.
  intros H. specialize (H demo_state_done eq_refl). vm_compute in H. discriminate.
Qed.

Lemma substitution_record_persistence_witness :
  main demo_env demo_args_json demo_state_fresh
    = ((main demo_env demo_args_json demo_state_fresh).1, Ret tt) ∧
  ∃ c e s dest,
    editor_pipeline demo_env (grad_enabled demo_state_fresh) c = Some (e, s) ∧
    added demo_state_fresh (main demo_env demo_args_json demo_state_fresh).1 =
      [Printed "[INFO]: Generating counterfactuals...";
       EditorPipeline (grad_enabled demo_state_fresh) c;
       Printed ("[INFO]: Exporting generated counterfactuals to " +:+ dest +:+ "...");
       ToCsv dest false e]
      ++ match a_json_file demo_args_json with
         | Some jf =>
             [Printed ("[INFO]: Exporting substitution dictionary to " +:+ jf +:+ "...");
              JsonDump jf (Some s)]
         | None => []
         end
      ++ [Printed (newline +:+ newline +:+ "Script execution time: "
                 +:+ elapsed demo_env)] ∧
    json_dumps (added demo_state_fresh (main demo_env demo_args_json demo_state_fresh).1) =
      match a_json_file demo_args_json with
      | Some jf => [(jf, Some s)]
      | None => []
      end.
Proof.
  split; [reflexivity|].
  apply (substitution_record_persistence demo_env demo_args_json demo_state_fresh).
  reflexivity.
Defined.

Lemma any_toggle_combination_accepted_witness :
  let a' := with_toggles demo_args (Some "noun") None (Some true) (Some true) None in
  let g := constructed a' demo_sentences 7 tt tt in
  let r := main demo_env a' demo_state_fresh in
  (GnnGenerator_init demo_env a' demo_state_fresh).2 = Ret 0 ∧
  heap (GnnGenerator_init demo_env a' demo_state_fresh).1 !! 0 = Some g ∧
  pos g = Some "noun" ∧ antonyms g = None ∧ edge_filter g = true ∧
  opt_th g = true ∧ use_contrastive_prob g = false ∧
  EditorPipeline true (editor_call g) ∈ added demo_state_fresh r.1 ∧
  (∀ code, r.2 ≠ Exit code) ∧
  (r.2 = Ret tt ↔
     is_Some (editor_pipeline demo_env true (editor_call g)) ∧
     can_write demo_env (dest_file g) = true ∧
     (∀ jf, json_file g = Some jf → can_write demo_env jf = true)) ∧
  (∀ e s, editor_pipeline demo_env true (editor_call g) = Some (e, s) →
     (∃ g', heap r.1 !! 0 = Some g' ∧ edits g' = Some e ∧ subs_dict g' = Some s) ∧
     (can_write demo_env (dest_file g) = true →
      ToCsv (dest_file g) false e ∈ added demo_state_fresh r.1 ∧
      ∀ jf, json_file g = Some jf → can_write demo_env jf = true →
            JsonDump jf (Some s) ∈ added demo_state_fresh r.1)).
Proof.
  apply (any_toggle_combination_accepted demo_env demo_args demo_state_fresh
           demo_sentences 7 tt tt (Some "noun") None (Some true) (Some true) None).
  exact demo_loads.
Defined.

Lemma gnn_is_inference_only_witness :
  grad_enabled (script demo_env demo_args demo_state_fresh).1 = false ∧
  (∀ grad c,
     EditorPipeline grad c ∈ added demo_state_fresh (script demo_env demo_args demo_state_fresh).1 →
     grad = false ∧ training (e_gnn_model c) = false ∧
     ∃ gf, a_gnn_model_file demo_args = Some gf ∧
           torch_load demo_env gf = Some (state_dict (e_gnn_model c))) ∧
  (∀ self g, heap demo_state_fresh !! self = None →
     heap (script demo_env demo_args demo_state_fresh).1 !! self = Some g →
     training (gnn_model g) = false ∧
     ∃ gf, a_gnn_model_file demo_args = Some gf ∧
           torch_load demo_env gf = Some (state_dict (gnn_model g))).
Proof. apply (gnn_is_inference_only demo_env demo_args demo_state_fresh). Defined.

Lemma only_the_designated_column_witness :
  (∃ cells, (("text", cells) : string * list cell) ∈ demo_table ∧
            sentences demo_generator = [("text", cells)]) ∧
  (∃ c, EditorPipeline (grad_enabled demo_state_new) c
          ∈ added demo_state_new
              (generate_counterfactuals demo_env 0 demo_state_new).1 ∧
        data c = sentences demo_generator) ∧
  script (with_read_csv demo_env demo_read_text_only) demo_args demo_state_fresh
  = script demo_env demo_args demo_state_fresh.
Proof.
  destruct (only_the_designated_column demo_env demo_args demo_state_fresh)
    as (Hcol & _ & Hrun).
  destruct (Hcol demo_state_new 0 eq_refl)
    as (src & col & table & g & Hs & Hc & Hr & Hg & _ & Hone & Hcall).
  vm_compute in Hs, Hc, Hr, Hg. simplify_eq.
  split_and!.
  - apply Hone. apply (bool_decide_unpack _). reflexivity.
  - exact Hcall.
  - apply Hrun. intros src col [= <-] [= <-]. reflexivity.
Defined.


Lemma toggles_normalized_witness :
  ∃ g, heap demo_state_new !! 0 = Some g ∧
    edge_filter g = false ∧ opt_th g = false ∧ use_contrastive_prob g = false ∧
    pos g = None ∧ antonyms g = Some true ∧
    ∃ c, EditorPipeline (grad_enabled demo_state_new) c
           ∈ added demo_state_new (generate_counterfactuals demo_env 0 demo_state_new).1 ∧
      e_pos c = None ∧ e_antonyms c = Some true ∧
      e_edge_filter c = false ∧ e_opt_th c = false ∧
      e_use_contrastive_prob c = false.
Proof.
  apply (toggles_normalized demo_env demo_args demo_state_fresh demo_state_new 0).
  reflexivity.
Defined.

Lemma generate_counterfactuals_frame_witness :
  heap demo_state_new !! 0 = Some demo_generator ∧
  let r := generate_counterfactuals demo_env 0 demo_state_new in
  (∃ g', heap r.1 !! 0 = Some g' ∧ same_config demo_generator g') ∧
  (∀ l, l ≠ 0 → heap r.1 !! l = heap demo_state_new !! l) ∧
  grad_enabled r.1 = grad_enabled demo_state_new ∧
  (∀ x, r.2 = Ret x →
     x = 0 ∧
     ∃ e s, editor_pipeline demo_env (grad_enabled demo_state_new)
              (editor_call demo_generator) = Some (e, s) ∧
            heap r.1 !! 0 = Some (set_results demo_generator e s)).
Proof.
  split; [reflexivity|].
  apply (generate_counterfactuals_frame demo_env 0 demo_state_new demo_generator).
  reflexivity.
Defined.

(** ** Error and edge behaviour, on the demo *)

Lemma exit_names_a_missing_reference_witness :
  configuration_error demo_env demo_args_no_model = true ∧
  ∃ line, exit_reason demo_env demo_args_no_model line ∧
    trace (GnnGenerator_init demo_env demo_args_no_model demo_state_fresh).1
      = trace demo_state_fresh ++ [Printed line].
Proof.
  destruct (exit_names_a_missing_reference demo_env demo_args_no_model
              demo_state_fresh
              (GnnGenerator_init demo_env demo_args_no_model demo_state_fresh).1 1)
    as (_ & Herr & line & Hreason & Htrace & _).
  - left. reflexivity.
  - split; [exact Herr|]. exists line. split; [exact Hreason|exact Htrace].
Defined.

Lemma cli_exit_names_a_missing_file_witness :
  ∃ p, p ∈ ["reviews.csv"; "lost.pth"; "predictor"] ∧
       path_exists demo_env p = false ∧
       trace (main demo_env (constructor_kwargs demo_namespace) demo_state_fresh).1
       = trace demo_state_fresh
         ++ [Printed ("[ERROR]: File " +:+ p +:+ " does not exist")].
Proof.
  apply (cli_exit_names_a_missing_file demo_env demo_namespace demo_state_fresh
           (main demo_env (constructor_kwargs demo_namespace) demo_state_fresh).1 1).
  reflexivity.
Defined.

Lemma construction_is_silent_witness :
  trace demo_state_new = trace demo_state_fresh ∧
  grad_enabled demo_state_new = grad_enabled demo_state_fresh ∧
  heap demo_state_fresh !! 0 = None ∧
  (∀ l, l ≠ 0 → heap demo_state_new !! l = heap demo_state_fresh !! l) ∧
  ∃ g, heap demo_state_new !! 0 = Some g ∧ edits g = None ∧ subs_dict g = None ∧
       training (gnn_model g) = false ∧ on_cuda (gnn_model g) = true.
Proof.
  apply (construction_is_silent demo_env demo_args demo_state_fresh demo_state_new 0).
  reflexivity.
Defined.

Lemma unknown_column_raises_witness :
  GnnGenerator_init demo_env demo_args_bad_col demo_state_fresh
  = (demo_state_fresh, Raise "KeyError").
Proof.
  apply (unknown_column_raises demo_env demo_args_bad_col demo_state_fresh
           "reviews.csv" "review" demo_table).
  - reflexivity.
  - reflexivity.
  - reflexivity.
  - reflexivity.
  - apply (bool_decide_unpack _). reflexivity.
Defined.

Lemma no_cuda_no_generator_witness :
  (∀ self, (GnnGenerator_init demo_env_cpu demo_args demo_state_fresh).2 ≠ Ret self) ∧
  (∀ e, e ∈ added demo_state_fresh (main demo_env_cpu demo_args demo_state_fresh).1 →
        ∃ line, e = Printed line).
Proof.
  apply (no_cuda_no_generator demo_env_cpu demo_args demo_state_fresh).
  reflexivity.
Defined.

Lemma export_before_generate_raises_witness :
  export_to_csv demo_env 0 demo_state_new =
    ({| grad_enabled := grad_enabled demo_state_new; heap := heap demo_state_new;
        trace := trace demo_state_new ++
          [Printed ("[INFO]: Exporting generated counterfactuals to "
                    +:+ dest_file demo_generator +:+ "...")] |},
     Raise "AttributeError").
Proof.
  apply (export_before_generate_raises demo_env 0 demo_state_new demo_generator).
  - reflexivity.
  - reflexivity.
Defined.

Lemma unwritable_json_keeps_csv_witness :
  ∃ g e,
    heap demo_state_generated !! 0 = Some g ∧ edits g = Some e ∧
    (export_to_csv demo_env_json_locked 0 demo_state_generated).2 = Raise "OSError" ∧
    (∃ line,
       added demo_state_generated
         (export_to_csv demo_env_json_locked 0 demo_state_generated).1 =
       [Printed ("[INFO]: Exporting generated counterfactuals to "
                 +:+ dest_file g +:+ "...");
        ToCsv (dest_file g) false e; Printed line]) ∧
    json_dumps (added demo_state_generated
                  (export_to_csv demo_env_json_locked 0 demo_state_generated).1) = [].
Proof.
  eexists _, _. split; [reflexivity|]. split; [reflexivity|].
  eapply (unwritable_json_keeps_csv demo_env_json_locked 0 demo_state_generated).
  - reflexivity.
  - reflexivity.
  - reflexivity.
  - reflexivity.
  - reflexivity.
Defined.

Lemma unwritable_csv_writes_nothing_witness :
  ∃ g,
    heap demo_state_generated !! 0 = Some g ∧
    export_to_csv demo_env_csv_locked 0 demo_state_generated =
      ({| grad_enabled := grad_enabled demo_state_generated;
          heap := heap demo_state_generated;
          trace := trace demo_state_generated ++
            [Printed ("[INFO]: Exporting generated counterfactuals to "
                      +:+ dest_file g +:+ "...")] |},
       Raise "OSError").
Proof.
  eexists. split; [reflexivity|].
  eapply (unwritable_csv_writes_nothing demo_env_csv_locked 0 demo_state_generated).
  - reflexivity.
  - reflexivity.
  - reflexivity.
Defined.

Lemma export_to_csv_repeatable_witness :
  let r1 := export_to_csv demo_env 0 demo_state_generated in
  let r2 := export_to_csv demo_env 0 r1.1 in
  heap r1.1 = heap demo_state_generated ∧
  grad_enabled r1.1 = grad_enabled demo_state_generated ∧
  (r1.2 = Ret 0 ∨ ∃ exn, r1.2 = Raise exn) ∧
  r2.2 = r1.2 ∧ added r1.1 r2.1 = added demo_state_generated r1.1.
Proof.
  eapply (export_to_csv_repeatable demo_env 0 demo_state_generated).
  reflexivity.
Defined.

Lemma editor_failure_leaves_generator_witness :
  (∃ exn, (generate_counterfactuals demo_env_editor_raises 0 demo_state_new).2
          = Raise exn) ∧
  heap (generate_counterfactuals demo_env_editor_raises 0 demo_state_new).1
    = heap demo_state_new ∧
  (∃ exn, (pipeline demo_env_editor_raises 0 demo_state_new).2 = Raise exn) ∧
  heap (pipeline demo_env_editor_raises 0 demo_state_new).1 = heap demo_state_new ∧
  csv_writes (added demo_state_new
                (pipeline demo_env_editor_raises 0 demo_state_new).1) = [] ∧
  json_dumps (added demo_state_new
                (pipeline demo_env_editor_raises 0 demo_state_new).1) = [].
Proof.
  apply (editor_failure_leaves_generator demo_env_editor_raises 0 demo_state_new
           demo_generator).
  - reflexivity.
  - reflexivity.
Defined.


Lemma cli_toggles_reach_the_editor_witness :
  let c := editor_call (constructed (constructor_kwargs demo_namespace_ok)
                          demo_sentences 7 tt tt) in
  e_antonyms c = Some false ∧ e_pos c = Some "adj" ∧
  e_edge_filter c = true ∧ e_opt_th c = false ∧
  e_use_contrastive_prob c = false.
Proof.
  apply (cli_toggles_reach_the_editor demo_env demo_namespace_ok demo_state_fresh true).
  vm_compute. apply list_elem_of_further, list_elem_of_here.
Defined.

Lemma main_completes_iff_witness :
  (main demo_env demo_args_json demo_state_fresh).2 = Ret tt.
Proof.
  apply (main_completes_iff demo_env demo_args_json demo_state_fresh).
  exists demo_sentences, 7, tt, tt. split_and!.
  - split.
    + exists "reviews.csv", demo_table, "text". by repeat split.
    + exists "gnn.pth". by repeat split.
    + exists "predictor". by repeat split.
    + reflexivity.
  - eexists. reflexivity.
  - reflexivity.
  - intros jf [= <-]. reflexivity.
Defined.

Lemma outputs_on_disk_witness :
  ∃ c e s,
    editor_pipeline demo_env (grad_enabled demo_state_fresh) c = Some (e, s) ∧
    let disk := written demo_resolve ∅
                  (added demo_state_fresh
                     (main demo_env demo_args_one_file demo_state_fresh).1) in
    disk !! "out.txt" = Some (Json (Some s)) ∧
    (demo_resolve "./out.txt" = demo_resolve "out.txt" →
     disk !! "out.txt" = Some (Json (Some s))) ∧
    (demo_resolve "./out.txt" ≠ demo_resolve "out.txt" →
     disk !! "out.txt" = Some (Csv false e)).
Proof.
  apply (outputs_on_disk demo_env demo_args_one_file demo_state_fresh
           (main demo_env demo_args_one_file demo_state_fresh).1 demo_resolve ∅).
  reflexivity.
Defined.

Example demo_one_file_on_disk :
  written demo_resolve ∅
    (added demo_state_fresh (main demo_env demo_args_one_file demo_state_fresh).1)
  = {[ "out.txt" := Json (Some {[ "good" := ["bad"] ]}) ]}.
Proof. vm_compute. reflexivity. Qed.
